(** * VoiceGuard front-end: the upload / analyze / display page

    A shallow embedding of [src/app/page.tsx].  The page is one React
    component, [VoiceGuardPage], with four [useState] cells and three
    event handlers; [handleAnalyze] is an [async] function with two
    [await] points.  Handlers are embedded as programs over the
    component's effects (state setters, [fetch], [response.json()]), so
    that the text of each definition follows the text of the handler, and
    an interpreter runs them against the session state. *)

From Stdlib Require Import String Ascii List ZArith Bool Lia Floats.
From Stdlib Require Import DecimalString DecimalN.
Import ListNotations.
Local Open Scope string_scope.

(** ** Data model *)

(** The DOM [File] the dropzone hands over: a named, typed blob. *)
Record File : Type := mkFile {
  name : string;
  mime : string;
  bytes : list Byte.byte
}.

(** [prediction: "spoof" | "bonafide"] *)
Inductive Prediction : Type := spoof | bonafide.

(** [probabilities: { bonafide: number; spoof: number }]: JavaScript
    numbers are IEEE 754 binary64 values, which is what [float] is. *)
Record Probabilities : Type := mkProbabilities {
  p_bonafide : float;
  p_spoof : float
}.

(** [interface AnalysisResult] *)
Record AnalysisResult : Type := mkAnalysisResult {
  prediction : Prediction;
  probabilities : Probabilities;
  spectrogram_png : string
}.

(** The four [useState] cells of [VoiceGuardPage]. *)
Record Session : Type := mkSession {
  file : option File;
  result : option AnalysisResult;
  isLoading : bool;
  error : option string
}.

(** [useState(null)], [useState(null)], [useState(false)], [useState(null)] *)
Definition initial : Session :=
  {| file := None; result := None; isLoading := false; error := None |}.

(** A thrown value, as far as the [catch] clause looks at it: [err.message],
    which is [undefined] ([None]) on a value that carries none. *)
Record JsError : Type := mkJsError { message : option string }.

(** [new Error(msg)] *)
Definition Error (msg : string) : JsError := {| message := Some msg |}.

(** [a || b] on an optional string: [undefined] and the empty string
    are falsy. *)
Definition js_or (a : option string) (b : string) : string :=
  match a with
  | Some (String c m) => String c m
  | Some EmptyString | None => b
  end.

(** [FormData]: the appended entries, in order. *)
Definition FormData : Type := list (string * File).

Definition FormData_new : FormData := [].

Definition FormData_append (field : string) (f : File) (fd : FormData) : FormData :=
  (fd ++ [(field, f)])%list.

(** The second argument of [fetch]. *)
Record RequestInit : Type := mkRequestInit {
  method : string;
  body : FormData
}.

Record Request : Type := mkRequest {
  url : string;
  init : RequestInit
}.

(** What the handler reads of a [Response]. *)
Record Response : Type := mkResponse {
  status : Z;
  statusText : string
}.

(** [response.ok]: the status is in the range 200-299. *)
Definition ok (r : Response) : bool :=
  (200 <=? status r)%Z && (status r <=? 299)%Z.

(** How an awaited promise settles. *)
Inductive Settled (T : Type) : Type :=
| Fulfilled (v : T)
| Rejected (e : JsError).
Arguments Fulfilled {T} v.
Arguments Rejected {T} e.

(** ** Handler programs *)

(** A call of one of the four state setters. *)
Inductive Write : Type :=
| WFile (f : option File)
| WResult (r : option AnalysisResult)
| WIsLoading (b : bool)
| WError (e : option string).

(** Programs: the effects a handler of this component performs.  An
    [await] carries the continuation that runs when the promise settles. *)
Inductive Prog (A : Type) : Type :=
| Ret (a : A)
| Throw (e : JsError)
| Do (w : Write) (k : Prog A)
| AwaitFetch (req : Request) (k : Settled Response -> Prog A)
| AwaitJson (r : Response) (k : Settled AnalysisResult -> Prog A).
Arguments Ret {A} a.
Arguments Throw {A} e.
Arguments Do {A} w k.
Arguments AwaitFetch {A} req k.
Arguments AwaitJson {A} r k.

Fixpoint bind {A B : Type} (p : Prog A) (f : A -> Prog B) : Prog B :=
  match p with
  | Ret a => f a
  | Throw e => Throw e
  | Do w k => Do w (bind k f)
  | AwaitFetch req k => AwaitFetch req (fun a => bind (k a) f)
  | AwaitJson r k => AwaitJson r (fun a => bind (k a) f)
  end.

Declare Scope prog_scope.
Delimit Scope prog_scope with prog.
Notation "x <- p ;; q" := (bind p (fun x => q))
  (at level 61, p at next level, right associativity) : prog_scope.
Notation "p ;; q" := (bind p (fun _ => q))
  (at level 61, right associativity) : prog_scope.
Local Open Scope prog_scope.

(** [try { p } catch (err) { h err }] *)
Fixpoint tryCatch {A : Type} (p : Prog A) (h : JsError -> Prog A) : Prog A :=
  match p with
  | Ret a => Ret a
  | Throw e => h e
  | Do w k => Do w (tryCatch k h)
  | AwaitFetch req k => AwaitFetch req (fun a => tryCatch (k a) h)
  | AwaitJson r k => AwaitJson r (fun a => tryCatch (k a) h)
  end.

(** [try { p } finally { fin }]: [fin] runs on both exits, and the exit of
    [p] is kept unless [fin] itself throws. *)
Fixpoint tryFinally {A : Type} (p : Prog A) (fin : Prog unit) : Prog A :=
  match p with
  | Ret a => fin ;; Ret a
  | Throw e => fin ;; Throw e
  | Do w k => Do w (tryFinally k fin)
  | AwaitFetch req k => AwaitFetch req (fun a => tryFinally (k a) fin)
  | AwaitJson r k => AwaitJson r (fun a => tryFinally (k a) fin)
  end.

Notation "'try' p 'catch' h 'finally' fin" := (tryFinally (tryCatch p h) fin)
  (at level 62, p at level 61, h at level 61, fin at level 61) : prog_scope.

Definition setFile (f : option File) : Prog unit := Do (WFile f) (Ret tt).
Definition setResult (r : option AnalysisResult) : Prog unit := Do (WResult r) (Ret tt).
Definition setIsLoading (b : bool) : Prog unit := Do (WIsLoading b) (Ret tt).
Definition setError (e : option string) : Prog unit := Do (WError e) (Ret tt).

(** [await p]: the value of a fulfilled promise; a rejection is thrown. *)
Definition settle {T : Type} (a : Settled T) : Prog T :=
  match a with
  | Fulfilled v => Ret v
  | Rejected e => Throw e
  end.

(** [await fetch(url, init)] *)
Definition fetch (u : string) (i : RequestInit) : Prog Response :=
  AwaitFetch {| url := u; init := i |} settle.

(** [await response.json()] *)
Definition json (r : Response) : Prog AnalysisResult :=
  AwaitJson r settle.

(** *** The three handlers of [VoiceGuardPage] *)

(** [onDrop], lines 25-30. *)
Definition onDrop (acceptedFiles : list File) : Prog unit :=
  match acceptedFiles with
  | f0 :: _ =>                      (* acceptedFiles.length > 0 *)
      setError None ;;
      setFile (Some f0)             (* acceptedFiles[0] *)
  | [] => Ret tt
  end.

(** [handleAnalyze], lines 38-66.  [file] is the value of the state cell
    in the render whose closure the handler is. *)
Definition handleAnalyze (file : option File) : Prog unit :=
  match file with
  | None => Ret tt                  (* if (!file) return; *)
  | Some file =>
      setIsLoading true ;;
      setError None ;;
      setResult None ;;
      let formData := FormData_new in
      let formData := FormData_append "file" file formData in
      try
        (response <- fetch "http://127.0.0.1:8000/predict"
                           {| method := "POST"; body := formData |} ;;
         (if negb (ok response)
          then Throw (Error ("Server error: " ++ statusText response))
          else Ret tt) ;;
         data <- json response ;;
         setResult (Some data))
      catch (fun err =>
         setError (Some (js_or (message err)
                    "An unexpected error occurred. Please try again.")))
      finally
        (setIsLoading false)
  end.

(** [handleReset], lines 68-72. *)
Definition handleReset : Prog unit :=
  setFile None ;;
  setResult None ;;
  setError None.

(** [AnalyzeButton], lines 142-160: [onClick={handleAnalyze}] on a button
    with [disabled={!file || isLoading}]; a disabled button dispatches no
    click. *)
Definition AnalyzeButton_disabled (isLoading : bool) (file : option File) : bool :=
  match file with None => true | Some _ => false end || isLoading.

Definition AnalyzeButton_onClick
    (handleAnalyze : Prog unit) (isLoading : bool) (file : option File) : Prog unit :=
  if AnalyzeButton_disabled isLoading file then Ret tt else handleAnalyze.

(** ** Running handlers *)

(** A setter call replaces the value of its cell. *)
Definition write (w : Write) (s : Session) : Session :=
  match w with
  | WFile f =>
      {| file := f; result := result s; isLoading := isLoading s; error := error s |}
  | WResult r =>
      {| file := file s; result := r; isLoading := isLoading s; error := error s |}
  | WIsLoading b =>
      {| file := file s; result := result s; isLoading := b; error := error s |}
  | WError e =>
      {| file := file s; result := result s; isLoading := isLoading s; error := e |}
  end.

(** A handler suspended at an [await]: what it waits for and how it goes on. *)
Inductive Task : Type :=
| OnFetch (req : Request) (k : Settled Response -> Prog unit)
| OnJson (r : Response) (k : Settled AnalysisResult -> Prog unit).

(** How a synchronous stretch of a handler ends. *)
Inductive Exit : Type :=
| Finished
| Uncaught (e : JsError)
| Awaiting (t : Task).

(** Run a handler up to its end or its next [await].  Reaching
    [AwaitFetch] is the call of [fetch]: the request is on the wire. *)
Fixpoint run (p : Prog unit) (s : Session) : Session * Exit :=
  match p with
  | Ret _ => (s, Finished)
  | Throw e => (s, Uncaught e)
  | Do w k => run k (write w s)
  | AwaitFetch req k => (s, Awaiting (OnFetch req k))
  | AwaitJson r k => (s, Awaiting (OnJson r k))
  end.

(** The network as one handler sees it when nothing else happens while
    it waits: how each request and each body read settles.  A body that
    parses is taken at the type the handler declares for it,
    [AnalysisResult]; the annotation is not checked when the page runs,
    and a body of another shape ([null], say) is outside this model. *)
Record Network : Type := mkNetwork {
  respond : Request -> Settled Response;
  parse : Response -> Settled AnalysisResult
}.

(** Run a handler to its end against a network, logging the requests it
    sends.  The result is the final session, the requests in order, and
    the error that escaped the handler, if any. *)
Fixpoint exec (net : Network) (p : Prog unit) (s : Session) (sent : list Request)
  : Session * list Request * option JsError :=
  match p with
  | Ret _ => (s, sent, None)
  | Throw e => (s, sent, Some e)
  | Do w k => exec net k (write w s) sent
  | AwaitFetch req k => exec net (k (respond net req)) s (sent ++ [req])%list
  | AwaitJson r k => exec net (k (parse net r)) s sent
  end.

(** ** The page as a transition system *)

(** The component instance: its state cells and the handlers suspended
    at an [await], oldest first.  Each pending task is one request whose
    outcome the page still waits for. *)
Record Page : Type := mkPage {
  session : Session;
  pending : list Task
}.

Definition page_load : Page := {| session := initial; pending := [] |}.

Definition in_flight (p : Page) : nat := length (pending p).

Definition spawned (x : Exit) : list Task :=
  match x with
  | Awaiting t => [t]
  | Finished | Uncaught _ => []
  end.

(** Run [h] on the page; [others] are the tasks that stay suspended. *)
Definition dispatch (h : Prog unit) (s : Session) (others : list Task) : Page :=
  let '(s', x) := run h s in
  {| session := s'; pending := (others ++ spawned x)%list |}.

(** How the promise a task waits for settles. *)
Inductive Answer : Type :=
| FetchSettled (a : Settled Response)
| JsonSettled (a : Settled AnalysisResult).

Definition resume (t : Task) (a : Answer) : option (Prog unit) :=
  match t, a with
  | OnFetch _ k, FetchSettled x => Some (k x)
  | OnJson _ k, JsonSettled x => Some (k x)
  | _, _ => None
  end.

Fixpoint remove_nth {A : Type} (i : nat) (l : list A) : list A :=
  match i, l with
  | _, [] => []
  | O, _ :: l' => l'
  | S i', x :: l' => x :: remove_nth i' l'
  end.

(** What can happen to the page: the user drops files on the dropzone,
    clicks the analyze button, clicks "Analyze Another File", or the
    promise the [i]-th pending task waits for settles. *)
Inductive Event : Type :=
| Drop (acceptedFiles : list File)
| ClickAnalyze
| ClickReset
| Settle (i : nat) (a : Answer).

(** One event.  React renders again after each handler and each resumed
    continuation, so every handler runs in the closure of the current
    render and reads the current cells.  [None]: the event cannot happen
    (no such pending task, or an answer of the wrong kind).  The user's
    events are not restricted to what the page shows (the upload zone and
    the analyze button only without a result, the reset button only with
    one): what holds of this system holds of the page. *)
Definition step (p : Page) (ev : Event) : option Page :=
  let s := session p in
  match ev with
  | Drop acceptedFiles =>
      Some (dispatch (onDrop acceptedFiles) s (pending p))
  | ClickAnalyze =>
      Some (dispatch
              (AnalyzeButton_onClick (handleAnalyze (file s)) (isLoading s) (file s))
              s (pending p))
  | ClickReset =>
      Some (dispatch handleReset s (pending p))
  | Settle i a =>
      match nth_error (pending p) i with
      | Some t =>
          match resume t a with
          | Some k => Some (dispatch k s (remove_nth i (pending p)))
          | None => None
          end
      | None => None
      end
  end.

(** The pages some sequence of events leads to from the page as loaded. *)
Inductive reachable : Page -> Prop :=
| reachable_load : reachable page_load
| reachable_step (p p' : Page) (ev : Event) :
    reachable p -> step p ev = Some p' -> reachable p'.

(** The operations of the session as single steps, a request settling
    before anything else happens: [analyze] stands for the whole of
    [handleAnalyze] against the network [net]. *)
Inductive Operation : Type :=
| acceptDrop (files : list File)
| analyze (net : Network)
| reset.

Definition perform (s : Session) (op : Operation) : Session :=
  match op with
  | acceptDrop files => fst (run (onDrop files) s)
  | analyze net => fst (fst (exec net (handleAnalyze (file s)) s []))
  | reset => fst (run handleReset s)
  end.

Definition perform_all (ops : list Operation) (s : Session) : Session :=
  fold_left perform ops s.

(** ** Display logic *)

(** *** [Number.prototype.toFixed] *)

(** The decimal digits of a natural number, no leading zero. *)
Definition digits (n : Z) : string :=
  NilEmpty.string_of_uint (N.to_uint (Z.to_N n)).

(** The integer [n] for which [n / 10^f] is nearest to [m * 2^e], the
    larger one of two that are equally near. *)
Definition nearest_scaled (m : positive) (e : Z) (f : nat) : Z :=
  let x := (Zpos m * 10 ^ Z.of_nat f)%Z in
  if (0 <=? e)%Z then (x * 2 ^ e)%Z
  else ((2 * x + 2 ^ (- e)) / 2 ^ (- e + 1))%Z.

(** [n] written with [f] digits after the point. *)
Definition fixed_notation (n : Z) (f : nat) : string :=
  let m := digits n in
  match f with
  | O => m
  | S _ =>
      let k := String.length m in
      let m :=
        if (k <=? f)%nat
        then String.concat EmptyString (repeat "0" (f + 1 - k)) ++ m
        else m in
      let k := String.length m in
      substring 0 (k - f) m ++ "." ++ substring (k - f) f m
  end.

(** Whether [m * 2^e >= 10^21]. *)
Definition at_least_1e21 (m : positive) (e : Z) : bool :=
  if (0 <=? e)%Z then (10 ^ 21 <=? Zpos m * 2 ^ e)%Z
  else (10 ^ 21 * 2 ^ (- e) <=? Zpos m)%Z.

(** [x.toFixed(f)] for [0 <= f <= 100].  [None] stands for the one case
    left out: [|x| >= 10^21], where the method falls back on the
    exponent notation of [Number::toString]. *)
Definition toFixed (x : float) (f : nat) : option string :=
  match Prim2SF x with
  | S754_nan => Some "NaN"
  | S754_infinity s => Some (if s then "-Infinity" else "Infinity")
  | S754_zero _ => Some (fixed_notation 0 f)
  | S754_finite s m e =>
      if at_least_1e21 m e then None
      else Some ((if s then "-" else EmptyString) ++ fixed_notation (nearest_scaled m e f) f)
  end.

(** *** [ResultDisplay], lines 162-213 *)

(** [result.probabilities[key]] *)
Definition prob (p : Probabilities) (key : Prediction) : float :=
  match key with
  | spoof => p_spoof p
  | bonafide => p_bonafide p
  end.

(** The values [ResultDisplay] derives from its [result] prop: the
    texts it puts before the three [%] signs and the two class names. *)
Record ResultView : Type := mkResultView {
  isSpoof : bool;
  confidence : option string;
  resultColor : string;
  resultBgColor : string;
  spoofProbability : option string;
  bonafideProbability : option string
}.

Definition ResultDisplay (result : AnalysisResult) : ResultView :=
  let isSpoof := match prediction result with spoof => true | bonafide => false end in
  let confidence :=
    toFixed (prob (probabilities result) (prediction result) * 100)%float 2 in
  let resultColor := if isSpoof then "text-red-500" else "text-green-500" in
  let resultBgColor :=
    if isSpoof then "bg-red-900/20 border-red-800"
    else "bg-green-900/20 border-green-800" in
  {| isSpoof := isSpoof;
     confidence := confidence;
     resultColor := resultColor;
     resultBgColor := resultBgColor;
     spoofProbability := toFixed (p_spoof (probabilities result) * 100)%float 2;
     bonafideProbability := toFixed (p_bonafide (probabilities result) * 100)%float 2 |}.

(** What [VoiceGuardPage] renders, lines 75-101: the error banner
    ([error && ...], an empty string being falsy), the upload zone with
    the analyze button ([!result && ...]), the result ([result && ...]). *)
Record PageView : Type := mkPageView {
  errorBanner : option string;
  uploadZone : bool;
  resultDisplay : option ResultView
}.

Definition VoiceGuardPage_render (s : Session) : PageView :=
  {| errorBanner :=
       match error s with
       | Some (String c m) => Some (String c m)
       | Some EmptyString | None => None
       end;
     uploadZone := match result s with None => true | Some _ => false end;
     resultDisplay := option_map ResultDisplay (result s) |}.

(** *** The other components of the page *)

(** The options [VoiceGuardPage] passes to [useDropzone], lines 32-36,
    next to [onDrop]: the accepted MIME pattern with its file
    extensions, and single selection.  The filtering itself is done by
    the dropzone library. *)
Record DropzoneOptions : Type := mkDropzoneOptions {
  accept : list (string * list string);
  multiple : bool
}.

Definition dropzoneOptions : DropzoneOptions :=
  {| accept := [("audio/*", [".mp3"; ".wav"; ".m4a"; ".ogg"; ".flac"])];
     multiple := false |}.

(** [Header], lines 106-113. *)
Record HeaderView : Type := mkHeaderView {
  heading : string;
  tagline : string
}.

Definition Header : HeaderView :=
  {| heading := "VoiceGuard";
     tagline := "Synthetic Voice & Deepfake Audio Detection" |}.

(** The line break and indentation inside the template literal of
    [UploadZone]'s class name. *)
Definition template_break : string := String (ascii_of_nat 10) "    ".

(** [UploadZone], lines 115-140: the class names of the zone and of its
    icon and the two lines of text. *)
Record UploadZoneView : Type := mkUploadZoneView {
  zoneClassName : string;
  iconClassName : string;
  zoneTitle : string;
  zoneNote : string
}.

Definition UploadZone (isDragActive : bool) (file : option File) : UploadZoneView :=
  {| zoneClassName :=
       "p-10 border-2 border-dashed rounded-xl cursor-pointer transition-colors duration-300"
       ++ template_break
       ++ (if isDragActive then "border-blue-400 bg-blue-900/20"
           else "border-slate-700 hover:border-blue-500")
       ++ template_break
       ++ match file with Some _ => "border-green-500" | None => EmptyString end;
     iconClassName :=
       "w-16 h-16 mb-4 "
       ++ match file with Some _ => "text-green-500" | None => "text-slate-500" end;
     zoneTitle :=
       match file with
       | Some f => name f
       | None =>
           if isDragActive then "Drop the file here"
           else "Click to select audio file or drag and drop"
       end;
     zoneNote :=
       match file with
       | Some _ => "Ready for Analysis"
       | None => "Supported formats: MP3, WAV, M4A, OGG"
       end |}.

(** [AnalyzeButton], lines 142-160, as rendered: whether it is disabled,
    whether it shows the spinner, and its label. *)
Record AnalyzeButtonView : Type := mkAnalyzeButtonView {
  disabled : bool;
  spinner : bool;
  label : string
}.

Definition AnalyzeButton (isLoading : bool) (file : option File) : AnalyzeButtonView :=
  {| disabled := AnalyzeButton_disabled isLoading file;
     spinner := isLoading;
     label := if isLoading then "Analyzing..." else "Start Analysis" |}.

(** [ErrorMessage], lines 217-222: the text it shows. *)
Definition ErrorMessage (message : string) : string := message.

(** The text of [{result.prediction}]. *)
Definition prediction_text (k : Prediction) : string :=
  match k with
  | spoof => "spoof"
  | bonafide => "bonafide"
  end.

(** [ResultDisplay] with what it shows besides the derived values: the
    prediction, the image source and the label of its button. *)
Record ResultPanel : Type := mkResultPanel {
  verdict : string;
  derived : ResultView;
  spectrogramSrc : string;
  resetLabel : string
}.

Definition ResultDisplay_panel (result : AnalysisResult) : ResultPanel :=
  {| verdict := prediction_text (prediction result);
     derived := ResultDisplay result;
     spectrogramSrc := spectrogram_png result;
     resetLabel := "Analyze Another File" |}.

(** The whole of what [VoiceGuardPage] returns, lines 75-101.
    [isDragActive] comes from [useDropzone]. *)
Record VoiceGuardPageView : Type := mkVoiceGuardPageView {
  header : HeaderView;
  errorMessage : option string;
  upload : option (UploadZoneView * AnalyzeButtonView);
  results : option ResultPanel
}.

Definition VoiceGuardPage (isDragActive : bool) (s : Session) : VoiceGuardPageView :=
  {| header := Header;
     errorMessage :=
       match error s with
       | Some (String c m) => Some (ErrorMessage (String c m))
       | Some EmptyString | None => None
       end;
     upload :=
       match result s with
       | None => Some (UploadZone isDragActive (file s),
                       AnalyzeButton (isLoading s) (file s))
       | Some _ => None
       end;
     results := option_map ResultDisplay_panel (result s) |}.

(** Whether the control an event comes from is on the page: the upload
    zone and the analyze button are rendered without a result only, the
    reset button with one only; a promise settles whatever is shown. *)
Definition on_page (s : Session) (ev : Event) : bool :=
  match ev with
  | Drop _ | ClickAnalyze =>
      match result s with None => true | Some _ => false end
  | ClickReset =>
      match result s with None => false | Some _ => true end
  | Settle _ _ => true
  end.

(** One event of the page as the user meets it. *)
Definition ui_step (p : Page) (ev : Event) : option Page :=
  if on_page (session p) ev then step p ev else None.

Fixpoint ui_run (evs : list Event) (p : Page) : option Page :=
  match evs with
  | [] => Some p
  | ev :: evs' =>
      match ui_step p ev with
      | Some p' => ui_run evs' p'
      | None => None
      end
  end.

(** The pages the user can bring about. *)
Inductive ui_reachable : Page -> Prop :=
| ui_reachable_load : ui_reachable page_load
| ui_reachable_step (p p' : Page) (ev : Event) :
    ui_reachable p -> ui_step p ev = Some p' -> ui_reachable p'.

(** ** Definitions the statements use *)

(** The request [handleAnalyze] builds for a file. *)
Definition request_for (f : File) : Request :=
  {| url := "http://127.0.0.1:8000/predict";
     init := {| method := "POST"; body := [("file", f)] |} |}.

(** The session while the request is out. *)
Definition loading (f : File) : Session :=
  {| file := Some f; result := None; isLoading := true; error := None |}.

(** The click on the analyze button in the render of session [s]. *)
Definition analyze_click (s : Session) : Prog unit :=
  AnalyzeButton_onClick (handleAnalyze (file s)) (isLoading s) (file s).

(** How [handleAnalyze] leaves session [s] when it fails with [e], and
    when it succeeds with [data]. *)
Definition failed_with (s : Session) (e : JsError) : Session :=
  {| file := file s; result := None; isLoading := false;
     error := Some (js_or (message e)
                      "An unexpected error occurred. Please try again.") |}.

Definition succeeded_with (s : Session) (data : AnalysisResult) : Session :=
  {| file := file s; result := Some data; isLoading := false; error := None |}.

(** The body of the spec's sample response, with any image string. *)
Definition sample_result (png : string) : AnalysisResult :=
  {| prediction := bonafide;
     probabilities := {| p_bonafide := 0x1.d70a3d70a3d71p-1;   (* 0.92 *)
                         p_spoof := 0x1.47ae147ae147bp-4 |};    (* 0.08 *)
     spectrogram_png := png |}.

Definition always (resp : Settled Response) (body : Settled AnalysisResult) : Network :=
  {| respond := fun _ => resp; parse := fun _ => body |}.

Definition song : File := {| name := "a.wav"; mime := "audio/wav"; bytes := [] |}.


(** A sequence of events, as far as each of them can happen. *)
Fixpoint run_events (evs : list Event) (p : Page) : option Page :=
  match evs with
  | [] => Some p
  | ev :: evs' =>
      match step p ev with
      | Some p' => run_events evs' p'
      | None => None
      end
  end.

(** What the user can do, as opposed to a promise settling. *)
Definition user_event (ev : Event) : Prop :=
  match ev with
  | Settle _ _ => False
  | Drop _ | ClickAnalyze | ClickReset => True
  end.

(** A program that ends at once like the [catch] clause of
    [handleAnalyze] on [e] followed by its [finally] clause, and one that
    ends like the last line of its [try] block followed by it. *)
Definition ends_failed (e : JsError) (k : Prog unit) : Prop :=
  forall s, run k s =
    ({| file := file s; result := result s; isLoading := false;
        error := Some (js_or (message e)
                         "An unexpected error occurred. Please try again.") |},
     Finished).

Definition ends_succeeded (data : AnalysisResult) (k : Prog unit) : Prop :=
  forall s, run k s =
    ({| file := file s; result := Some data; isLoading := false; error := error s |},
     Finished).

(** The continuations of [handleAnalyze] at its two [await]s, by what
    they do on each answer. *)
Definition json_cont (k : Settled AnalysisResult -> Prog unit) : Prop :=
  (forall e, ends_failed e (k (Rejected e)))
  /\ (forall data, ends_succeeded data (k (Fulfilled data))).

Definition fetch_cont (k : Settled Response -> Prog unit) : Prop :=
  (forall e, ends_failed e (k (Rejected e)))
  /\ (forall resp, ok resp = false ->
        ends_failed (Error ("Server error: " ++ statusText resp)) (k (Fulfilled resp)))
  /\ (forall resp, ok resp = true ->
        exists k', (forall s, run (k (Fulfilled resp)) s = (s, Awaiting (OnJson resp k')))
                   /\ json_cont k').

(** The page is loading and shows neither result nor error. *)
Definition waiting (p : Page) : Prop :=
  isLoading (session p) = true /\ result (session p) = None /\ error (session p) = None.

(** The events from the arrival of the answer [a] to [fetch] to the end
    of the handler: when the response is ok, the body is read and its
    parse settles with [b], the user doing [evs] meanwhile. *)
Definition settlement (a : Settled Response) (evs : list Event)
    (b : Settled AnalysisResult) : list Event :=
  Settle 0 (FetchSettled a)
  :: match a with
     | Fulfilled resp =>
         if ok resp then (evs ++ [Settle 0 (JsonSettled b)])%list else []
     | Rejected _ => []
     end.

(** What the session shows once [handleAnalyze] has ended on the answers
    [a] and [b]. *)
Definition outcome (a : Settled Response) (b : Settled AnalysisResult)
    (s : Session) : Prop :=
  let failed e :=
    result s = None
    /\ error s = Some (js_or (message e)
                         "An unexpected error occurred. Please try again.") in
  match a with
  | Rejected e => failed e
  | Fulfilled resp =>
      if ok resp then
        match b with
        | Fulfilled data => result s = Some data /\ error s = None
        | Rejected e => failed e
        end
      else failed (Error ("Server error: " ++ statusText resp))
  end.

(** The programs a suspended [handleAnalyze] can go on with: set the
    result or the error and then [isLoading] to false, or wait for the
    body and go on likewise. *)
Inductive closing : Prog unit -> Prop :=
| closing_result (data : AnalysisResult) :
    closing (Do (WResult (Some data)) (Do (WIsLoading false) (Ret tt)))
| closing_error (msg : string) :
    closing (Do (WError (Some msg)) (Do (WIsLoading false) (Ret tt)))
| closing_json (r : Response) (k : Settled AnalysisResult -> Prog unit) :
    (forall a, closing (k a)) -> closing (AwaitJson r k).

Definition analyze_task (t : Task) : Prop :=
  match t with
  | OnFetch _ k => forall a, closing (k a)
  | OnJson _ k => forall a, closing (k a)
  end.

(** Either a request is out, the session is loading and shows neither
    result nor error, or nothing is pending, the session is not loading
    and shows at most one of the two. *)
Definition page_inv (p : Page) : Prop :=
  let s := session p in
  (isLoading s = true /\ result s = None /\ error s = None
   /\ exists t, pending p = [t] /\ analyze_task t)
  \/ (isLoading s = false /\ pending p = []
      /\ (result s = None \/ error s = None)).

(** The session shows a result and an error at once. *)
Definition both_set (s : Session) : Prop := result s <> None /\ error s <> None.

(** Reading a fixed notation with two decimals back: the digits before
    and after the point, the latter exactly two, as a number of
    hundredths. *)
Fixpoint split_point (t : string) : option (string * string) :=
  match t with
  | EmptyString => None
  | String c t' =>
      if Ascii.eqb c "." then Some (EmptyString, t')
      else match split_point t' with
           | Some (a, b) => Some (String c a, b)
           | None => None
           end
  end.

Definition read_hundredths (t : string) : option Z :=
  match split_point t with
  | Some (a, b) =>
      if (String.length b =? 2)%nat then
        match NilEmpty.uint_of_string (a ++ b) with
        | Some d => Some (Z.of_N (N.of_uint d))
        | None => None
        end
      else None
  | None => None
  end.

(** No character of [t] is the point. *)
Fixpoint no_point (t : string) : Prop :=
  match t with
  | EmptyString => True
  | String c t' => Ascii.eqb c "." = false /\ no_point t'
  end.

(** [z] zeros. *)
Fixpoint zeros (z : nat) : string :=
  match z with O => EmptyString | S z' => String "0" (zeros z') end.

(** A binary64 value between 0 and 1: a zero, or a positive finite
    value at most 1. *)
Definition probability (x : spec_float) : Prop :=
  match x with
  | S754_zero _ => True
  | S754_finite s m e =>
      s = false /\ (-1074 <= e <= -52)%Z /\ (Zpos m * 2 ^ (e + 1074) <= 2 ^ 1074)%Z
  | S754_infinity _ | S754_nan => False
  end.

(** The value in units of [2^-1074], the least positive binary64 value. *)
Definition units (x : spec_float) : Z :=
  match x with
  | S754_finite _ m e => (Zpos m * 2 ^ (e + 1074))%Z
  | _ => 0%Z
  end.

(** What a suspended [handleAnalyze] goes on with, by the [await] it is
    suspended at. *)
Definition task_spec (t : Task) : Prop :=
  match t with
  | OnFetch _ k => fetch_cont k
  | OnJson _ k => json_cont k
  end.

(** Every pending task is a suspended [handleAnalyze], and an error
    message, when there is one, is not empty. *)
Definition tasks_inv (p : Page) : Prop :=
  Forall task_spec (pending p) /\ error (session p) <> Some EmptyString.

(** The head of the last non-empty list among [drops]. *)
Fixpoint last_dropped (drops : list (list File)) (sofar : option File) : option File :=
  match drops with
  | [] => sofar
  | [] :: rest => last_dropped rest sofar
  | (f0 :: _) :: rest => last_dropped rest (Some f0)
  end.

(** Upper case of a lower-case letter. *)
Definition upper (c : ascii) : ascii :=
  let n := nat_of_ascii c in
  if ((97 <=? n) && (n <=? 122))%nat then ascii_of_nat (n - 32) else c.

Fixpoint upper_string (t : string) : string :=
  match t with
  | EmptyString => EmptyString
  | String c t' => String (upper c) (upper_string t')
  end.

(** Whether [t] occurs in [text]. *)
Fixpoint occurs (t text : string) : bool :=
  prefix t text
  || match text with
     | EmptyString => false
     | String _ text' => occurs t text'
     end.

(** Whether a note names the format of an extension such as [.mp3]: its
    letters in upper case. *)
Definition names_format (note ext : string) : bool :=
  match ext with
  | String "." letters => occurs (upper_string letters) note
  | _ => false
  end.

(** Both probabilities of a result lie between 0 and 1 and their
    binary64 sum is 1. *)
Definition valid_result (r : AnalysisResult) : bool :=
  let p := probabilities r in
  ((0 <=? p_bonafide p) && (p_bonafide p <=? 1)
   && (0 <=? p_spoof p) && (p_spoof p <=? 1)
   && (p_bonafide p + p_spoof p =? 1))%float.

(** The sum, in hundredths, of the spoof and bonafide percentages that
    [ResultDisplay] shows, read back from their texts. *)
Definition shown_sum (r : AnalysisResult) : option Z :=
  match spoofProbability (ResultDisplay r), bonafideProbability (ResultDisplay r) with
  | Some ts, Some tb =>
      match read_hundredths ts, read_hundredths tb with
      | Some ns, Some nb => Some (ns + nb)%Z
      | _, _ => None
      end
  | _, _ => None
  end.

(** [n] hundredths is 100 times the value of [x] rounded to two
    decimals: with [x = X * 2^-1074], the distance of [n] from
    [10000 * x] is at most one half (the rounding of [toFixed]) plus
    [2^-38] (what the binary64 product [x * 100] is off by, counted in
    hundredths), the whole written in units of [2^-1121]. *)
Definition rounds_to_hundredths (x : float) (n : Z) : Prop :=
  let X := units (Prim2SF x) in
  (Z.abs (2 ^ 1121 * n - 10000 * 2 ^ 47 * X) <= 2 ^ 1120 + 2 ^ 1083)%Z.

(** ** Properties *)


Lemma js_or_nonempty (a : option string) (b : string) :
  b <> EmptyString -> js_or a b <> EmptyString.
Proof.
  intros Hb. destruct a as [[|c m]|]; simpl; try assumption. discriminate.
Qed.

Lemma run_onDrop (s : Session) (f0 : File) (rest : list File) :
  run (onDrop (f0 :: rest)) s =
  ({| file := Some f0; result := result s; isLoading := isLoading s; error := None |},
   Finished).
Proof. reflexivity. Qed.

Lemma run_onDrop_nil (s : Session) : run (onDrop []) s = (s, Finished).
Proof. reflexivity. Qed.

Lemma run_handleReset (s : Session) :
  run handleReset s =
  ({| file := None; result := None; isLoading := isLoading s; error := None |}, Finished).
Proof. reflexivity. Qed.

Lemma analyze_click_enabled (s : Session) (f : File) :
  file s = Some f -> isLoading s = false -> analyze_click s = handleAnalyze (Some f).
Proof.
  intros Hf Hl. unfold analyze_click, AnalyzeButton_onClick, AnalyzeButton_disabled.
  rewrite Hf, Hl. reflexivity.
Qed.

Lemma analyze_click_disabled (s : Session) :
  file s = None \/ isLoading s = true -> analyze_click s = Ret tt.
Proof.
  intros H. unfold analyze_click, AnalyzeButton_onClick, AnalyzeButton_disabled.
  destruct H as [H|H]; rewrite H; [reflexivity|].
  rewrite orb_true_r. reflexivity.
Qed.

(** The handler by itself looks at [file] only: called in a session that
    is loading, it sends a request like any other.  What keeps a second
    request from going out is the [disabled] attribute of the button. *)
Lemma handleAnalyze_unguarded (f : File) :
  exists k, run (handleAnalyze (Some f)) (loading f) =
            (loading f, Awaiting (OnFetch (request_for f) k)).
Proof. eexists. reflexivity. Qed.

(** *** Complete runs of [handleAnalyze] *)

Section CompleteRuns.
Variable net : Network.
Variable s : Session.
Variable f : File.
Variable sent : list Request.

Lemma exec_fetch_rejected (e : JsError) :
  respond net (request_for f) = Rejected e ->
  exec net (handleAnalyze (Some f)) s sent =
  (failed_with s e, (sent ++ [request_for f])%list, None).
Proof.
  intros H. unfold request_for in H. cbn. cbn in H. rewrite H. reflexivity.
Qed.

Lemma exec_not_ok (resp : Response) :
  respond net (request_for f) = Fulfilled resp ->
  ok resp = false ->
  exec net (handleAnalyze (Some f)) s sent =
  (failed_with s (Error ("Server error: " ++ statusText resp)),
   (sent ++ [request_for f])%list, None).
Proof.
  intros H Hok. unfold request_for in H. cbn. cbn in H. rewrite H. cbn.
  rewrite Hok. reflexivity.
Qed.

Lemma exec_json_rejected (resp : Response) (e : JsError) :
  respond net (request_for f) = Fulfilled resp ->
  ok resp = true ->
  parse net resp = Rejected e ->
  exec net (handleAnalyze (Some f)) s sent =
  (failed_with s e, (sent ++ [request_for f])%list, None).
Proof.
  intros H Hok Hp. unfold request_for in H. cbn. cbn in H. rewrite H. cbn.
  rewrite Hok. cbn. rewrite Hp. reflexivity.
Qed.

Lemma exec_success (resp : Response) (data : AnalysisResult) :
  respond net (request_for f) = Fulfilled resp ->
  ok resp = true ->
  parse net resp = Fulfilled data ->
  exec net (handleAnalyze (Some f)) s sent =
  (succeeded_with s data, (sent ++ [request_for f])%list, None).
Proof.
  intros H Hok Hp. unfold request_for in H. cbn. cbn in H. rewrite H. cbn.
  rewrite Hok. cbn. rewrite Hp. reflexivity.
Qed.

(** Whatever the network does, the handler sends this one request, ends
    without an escaping error and leaves [isLoading] false. *)
Lemma exec_handleAnalyze_always :
  exists s',
    exec net (handleAnalyze (Some f)) s sent =
    (s', (sent ++ [request_for f])%list, None)
    /\ isLoading s' = false /\ file s' = file s.
Proof.
  destruct (respond net (request_for f)) as [resp|e] eqn:H.
  - destruct (ok resp) eqn:Hok.
    + destruct (parse net resp) as [data|e] eqn:Hp.
      * rewrite (exec_success resp data H Hok Hp). eexists; repeat split.
      * rewrite (exec_json_rejected resp e H Hok Hp). eexists; repeat split.
    + rewrite (exec_not_ok resp H Hok). eexists; repeat split.
  - rewrite (exec_fetch_rejected e H). eexists; repeat split.
Qed.
End CompleteRuns.

(** *** Drop, analyze and reset from an arbitrary session *)

(** C2.  With a file selected, when the request of [handleAnalyze]
    settles with a 2xx status and the body
    [{prediction: "bonafide", probabilities: {bonafide: 0.92, spoof: 0.08},
    spectrogram_png: png}], the session ends with [isLoading] false, a
    result whose prediction is [bonafide], no error, and the confidence
    the page renders is ["92.00"]. *)
Theorem C2_success_settlement
    (s : Session) (f : File) (net : Network) (resp : Response) (png : string) :
  file s = Some f ->
  respond net (request_for f) = Fulfilled resp ->
  (200 <= status resp <= 299)%Z ->
  parse net resp = Fulfilled (sample_result png) ->
  let s' := perform s (analyze net) in
  isLoading s' = false
  /\ option_map prediction (result s') = Some bonafide
  /\ error s' = None
  /\ option_map confidence (resultDisplay (VoiceGuardPage_render s')) = Some (Some "92.00").
Proof.
  intros Hf Hr Hst Hp. cbn zeta. unfold perform. rewrite Hf.
  assert (Hok : ok resp = true).
  { unfold ok. apply andb_true_intro. split; apply Z.leb_le; lia. }
  rewrite (exec_success net s f [] resp (sample_result png) Hr Hok Hp).
  cbn [fst succeeded_with isLoading result error option_map prediction sample_result
       VoiceGuardPage_render resultDisplay].
  split; [reflexivity|]. split; [reflexivity|]. split; [reflexivity|].
  vm_compute. reflexivity.
Qed.

Lemma C2_success_settlement_witness :
  let s := {| file := Some song; result := None; isLoading := false; error := None |} in
  let net := always (Fulfilled {| status := 200; statusText := "OK" |})
                    (Fulfilled (sample_result "data:image/png;base64,AAAA")) in
  let s' := perform s (analyze net) in
  isLoading s' = false
  /\ option_map prediction (result s') = Some bonafide
  /\ error s' = None
  /\ option_map confidence (resultDisplay (VoiceGuardPage_render s')) = Some (Some "92.00").
Proof.
  intros s net.
  apply (C2_success_settlement s song net {| status := 200; statusText := "OK" |}
           "data:image/png;base64,AAAA").
  - reflexivity.
  - reflexivity.
  - simpl; lia.
  - reflexivity.
Defined.

(** C3.  With a file selected, when the request completes with a status
    outside 200-299, the session ends with [isLoading] false, no result,
    and the error message ["Server error: "] followed by the status
    text, so the status text is part of the message. *)
Theorem C3_server_error
    (s : Session) (f : File) (net : Network) (resp : Response) :
  file s = Some f ->
  respond net (request_for f) = Fulfilled resp ->
  ~ (200 <= status resp <= 299)%Z ->
  let s' := perform s (analyze net) in
  isLoading s' = false
  /\ result s' = None
  /\ error s' = Some ("Server error: " ++ statusText resp)
  /\ exists pre post msg, error s' = Some msg /\ msg = pre ++ statusText resp ++ post.
Proof.
  intros Hf Hr Hst. cbn zeta. unfold perform. rewrite Hf.
  assert (Hok : ok resp = false).
  { unfold ok. apply andb_false_iff.
    destruct (Z.leb_spec 200 (status resp)); [right|left; reflexivity].
    apply Z.leb_gt. lia. }
  rewrite (exec_not_ok net s f [] resp Hr Hok).
  cbn [fst failed_with isLoading result error message Error].
  assert (Hm : js_or (Some ("Server error: " ++ statusText resp))
                 "An unexpected error occurred. Please try again."
               = "Server error: " ++ statusText resp) by reflexivity.
  rewrite Hm.
  split; [reflexivity|]. split; [reflexivity|]. split; [reflexivity|].
  exists "Server error: ", EmptyString, ("Server error: " ++ statusText resp).
  split; [reflexivity|].
  f_equal. clear. induction (statusText resp) as [|c t IH]; [reflexivity|].
  simpl. f_equal. exact IH.
Qed.

Lemma C3_server_error_witness :
  let s := {| file := Some song; result := None; isLoading := false; error := None |} in
  let resp := {| status := 500; statusText := "Internal Server Error" |} in
  let net := always (Fulfilled resp) (Rejected {| message := None |}) in
  let s' := perform s (analyze net) in
  isLoading s' = false
  /\ result s' = None
  /\ error s' = Some ("Server error: " ++ statusText resp)
  /\ exists pre post msg, error s' = Some msg /\ msg = pre ++ statusText resp ++ post.
Proof.
  intros s resp net.
  apply (C3_server_error s song net resp).
  - reflexivity.
  - reflexivity.
  - simpl; lia.
Defined.

(** The literals of [sample_result] are the doubles nearest to 0.92 and
    0.08, which is how a JSON number is read. *)
Example sample_literals :
  (PrimFloat.eqb (p_bonafide (probabilities (sample_result "x"))) (92 / 100)
   && PrimFloat.eqb (p_spoof (probabilities (sample_result "x"))) (8 / 100))%float = true.
Proof. vm_compute. reflexivity. Qed.

(** C4.  With a file selected, when the request fails below HTTP
    ([fetch] rejects) or the body of a 2xx response does not parse
    ([response.json()] rejects), the session ends with [isLoading]
    false, no result, and a non-empty error message: the message of the
    failure when it has a non-empty one, the fixed fallback otherwise. *)
Theorem C4_request_error (s : Session) (f : File) (net : Network) (e : JsError) :
  file s = Some f ->
  respond net (request_for f) = Rejected e
  \/ (exists resp, respond net (request_for f) = Fulfilled resp
                   /\ ok resp = true /\ parse net resp = Rejected e) ->
  let s' := perform s (analyze net) in
  let fallback := "An unexpected error occurred. Please try again." in
  isLoading s' = false
  /\ result s' = None
  /\ (exists msg, error s' = Some msg /\ msg <> EmptyString
        /\ match message e with
           | Some (String c m) => msg = String c m
           | Some EmptyString | None => msg = fallback
           end).
Proof.
  intros Hf H. cbn zeta. unfold perform. rewrite Hf.
  assert (Hx : exec net (handleAnalyze (Some f)) s [] =
               (failed_with s e, ([] ++ [request_for f])%list, None)).
  { destruct H as [H|(resp & Hr & Hok & Hp)].
    - apply exec_fetch_rejected; assumption.
    - apply (exec_json_rejected net s f [] resp e); assumption. }
  rewrite Hx. cbn [fst failed_with isLoading result error].
  split; [reflexivity|]. split; [reflexivity|].
  eexists. split; [reflexivity|]. split.
  - apply js_or_nonempty. discriminate.
  - destruct (message e) as [[|c m]|]; reflexivity.
Qed.

Lemma C4_request_error_witness :
  let s := {| file := Some song; result := None; isLoading := false; error := None |} in
  let e := Error "Failed to fetch" in
  let net := always (Rejected e) (Rejected e) in
  let s' := perform s (analyze net) in
  let fallback := "An unexpected error occurred. Please try again." in
  isLoading s' = false
  /\ result s' = None
  /\ (exists msg, error s' = Some msg /\ msg <> EmptyString
        /\ match message e with
           | Some (String c m) => msg = String c m
           | Some EmptyString | None => msg = fallback
           end).
Proof.
  intros s e net.
  apply (C4_request_error s song net e).
  - reflexivity.
  - left. reflexivity.
Defined.

(** C5.  With a file selected and [isLoading] false, the click on the
    analyze button runs [handleAnalyze], which first puts the session in
    its loading state ([isLoading] true, no error, no result) and then
    sends one request: a POST to the URL ending in [/predict] whose form
    data is the single entry [file] holding the selected file.  Run to
    its end against any network, the handler has sent that request and
    no other and leaves [isLoading] false. *)
Theorem C5_analyze_request (s : Session) (f : File) (net : Network) :
  file s = Some f ->
  isLoading s = false ->
  analyze_click s = handleAnalyze (file s)
  /\ (exists k, run (handleAnalyze (file s)) s =
                (loading f, Awaiting (OnFetch (request_for f) k)))
  /\ (exists base, url (request_for f) = base ++ "/predict")
  /\ method (init (request_for f)) = "POST"
  /\ body (init (request_for f)) = [("file", f)]
  /\ snd (fst (exec net (handleAnalyze (file s)) s [])) = [request_for f]
  /\ isLoading (perform s (analyze net)) = false.
Proof.
  intros Hf Hl.
  split. { rewrite (analyze_click_enabled s f Hf Hl), Hf. reflexivity. }
  split.
  { destruct s as [fl r l er]. simpl in Hf. subst fl. eexists. reflexivity. }
  split. { exists "http://127.0.0.1:8000". reflexivity. }
  split; [reflexivity|]. split; [reflexivity|].
  unfold perform. rewrite Hf.
  destruct (exec_handleAnalyze_always net s f []) as (s' & Hx & Hl' & _).
  rewrite Hx. split; [reflexivity | exact Hl'].
Qed.

Lemma C5_analyze_request_witness :
  let s := {| file := Some song; result := None; isLoading := false;
              error := Some "Server error: Bad Gateway" |} in
  let net := always (Rejected (Error "Failed to fetch")) (Rejected (Error EmptyString)) in
  analyze_click s = handleAnalyze (file s)
  /\ (exists k, run (handleAnalyze (file s)) s =
                (loading song, Awaiting (OnFetch (request_for song) k)))
  /\ (exists base, url (request_for song) = base ++ "/predict")
  /\ method (init (request_for song)) = "POST"
  /\ body (init (request_for song)) = [("file", song)]
  /\ snd (fst (exec net (handleAnalyze (file s)) s [])) = [request_for song]
  /\ isLoading (perform s (analyze net)) = false.
Proof.
  intros s net.
  apply (C5_analyze_request s song net); reflexivity.
Defined.

(** C6.  With no file selected, [handleAnalyze] returns at once: the
    session is unchanged, no request is sent and nothing is left
    pending; the same holds for the click on the (disabled) button. *)
Theorem C6_analyze_without_file (s : Session) (net : Network) (tasks : list Task) :
  file s = None ->
  run (handleAnalyze (file s)) s = (s, Finished)
  /\ exec net (handleAnalyze (file s)) s [] = (s, [], None)
  /\ perform s (analyze net) = s
  /\ step {| session := s; pending := tasks |} ClickAnalyze
     = Some {| session := s; pending := tasks |}.
Proof.
  intros Hf. unfold perform. rewrite Hf. cbn.
  split; [reflexivity|]. split; [reflexivity|]. split; [reflexivity|].
  unfold dispatch, AnalyzeButton_onClick, AnalyzeButton_disabled. rewrite Hf. cbn.
  rewrite app_nil_r. reflexivity.
Qed.

Lemma C6_analyze_without_file_witness :
  let s := {| file := None; result := None; isLoading := false;
              error := Some "Server error: Bad Gateway" |} in
  let net := always (Rejected (Error "Failed to fetch")) (Rejected (Error EmptyString)) in
  run (handleAnalyze (file s)) s = (s, Finished)
  /\ exec net (handleAnalyze (file s)) s [] = (s, [], None)
  /\ perform s (analyze net) = s
  /\ step {| session := s; pending := [] |} ClickAnalyze
     = Some {| session := s; pending := [] |}.
Proof.
  intros s net.
  apply (C6_analyze_without_file s net []). reflexivity.
Defined.

(** C7.  After any earlier drops, a drop of a non-empty list makes its
    first entry the selected file and clears the error; the result and
    [isLoading] are what they were before the call; the handler ends
    without an [await], so it sends no request and leaves the pending
    tasks as they are. *)
Theorem C7_accept_drop
    (s : Session) (earlier : list (list File)) (files : list File)
    (net : Network) (tasks : list Task) :
  files <> [] ->
  let before := perform_all (map acceptDrop earlier) s in
  let after := perform before (acceptDrop files) in
  file after = hd_error files
  /\ error after = None
  /\ result after = result before
  /\ isLoading after = isLoading before
  /\ run (onDrop files) before = (after, Finished)
  /\ exec net (onDrop files) before [] = (after, [], None)
  /\ step {| session := before; pending := tasks |} (Drop files)
     = Some {| session := after; pending := tasks |}.
Proof.
  intros Hne before after. subst after. generalize before. clear before.
  intros before. destruct files as [|f0 rest]; [congruence|].
  cbn. unfold dispatch. cbn. rewrite app_nil_r.
  repeat (split; [reflexivity|]). reflexivity.
Qed.

Lemma C7_accept_drop_witness :
  let s := {| file := None; result := Some (sample_result "data:");
              isLoading := false; error := Some "Server error: Bad Gateway" |} in
  let other := {| name := "b.mp3"; mime := "audio/mpeg"; bytes := [] |} in
  let net := always (Rejected (Error "Failed to fetch")) (Rejected (Error EmptyString)) in
  let before := perform_all (map acceptDrop [[other]; []]) s in
  let after := perform before (acceptDrop [song; other]) in
  file after = hd_error [song; other]
  /\ error after = None
  /\ result after = result before
  /\ isLoading after = isLoading before
  /\ run (onDrop [song; other]) before = (after, Finished)
  /\ exec net (onDrop [song; other]) before [] = (after, [], None)
  /\ step {| session := before; pending := [] |} (Drop [song; other])
     = Some {| session := after; pending := [] |}.
Proof.
  intros s other net.
  apply (C7_accept_drop s [[other]; []] [song; other] net []). discriminate.
Defined.

(** C8 as the specification states it, at a session that is loading: after
    [handleReset] the three cells it sets are null, and [isLoading] is
    still true. *)
Lemma C8_reset_counterexample :
  let s := {| file := Some song; result := Some (sample_result "data:");
              isLoading := true; error := None |} in
  let s' := perform s reset in
  isLoading s' = true
  /\ ~ (file s' = None /\ result s' = None /\ error s' = None /\ isLoading s' = false).
Proof.
  cbn. split; [reflexivity|]. intros (_ & _ & _ & H). discriminate H.
Qed.

(** C8, amended.  From every session, [handleReset] sets the selected
    file, the result and the error to null and leaves [isLoading] as it
    is; it sends no request. *)
Theorem C8_reset (s : Session) (net : Network) (tasks : list Task) :
  let s' := {| file := None; result := None; isLoading := isLoading s; error := None |} in
  perform s reset = s'
  /\ run handleReset s = (s', Finished)
  /\ exec net handleReset s [] = (s', [], None)
  /\ step {| session := s; pending := tasks |} ClickReset
     = Some {| session := s'; pending := tasks |}.
Proof.
  cbn. unfold dispatch. cbn. rewrite app_nil_r.
  repeat (split; [reflexivity|]). reflexivity.
Qed.

(** *** Invariants of the page *)

Lemma handleAnalyze_task (f : File) (s : Session) :
  exists k, run (handleAnalyze (Some f)) s
            = ({| file := file s; result := None; isLoading := true; error := None |},
               Awaiting (OnFetch (request_for f) k))
            /\ analyze_task (OnFetch (request_for f) k).
Proof.
  eexists. split; [reflexivity|].
  intros [resp|e]; cbn.
  - destruct (ok resp); cbn.
    + apply closing_json. intros [data|e]; cbn; constructor.
    + constructor.
  - constructor.
Qed.

Lemma run_closing (k : Prog unit) (s : Session) :
  closing k ->
  (exists data, run k s = ({| file := file s; result := Some data; isLoading := false;
                              error := error s |}, Finished))
  \/ (exists msg, run k s = ({| file := file s; result := result s; isLoading := false;
                                error := Some msg |}, Finished))
  \/ (exists t, run k s = (s, Awaiting t) /\ analyze_task t).
Proof.
  intros [data|msg|r k' Hk].
  - left. exists data. reflexivity.
  - right; left. exists msg. reflexivity.
  - right; right. exists (OnJson r k'). split; [reflexivity | exact Hk].
Qed.

Lemma resume_analyze_task (t : Task) (a : Answer) (k : Prog unit) :
  analyze_task t -> resume t a = Some k -> closing k.
Proof.
  destruct t as [req k'|r k'], a as [x|x]; simpl; intros H E;
    try discriminate; injection E as <-; apply H.
Qed.

Lemma page_inv_step (p p' : Page) (ev : Event) :
  page_inv p -> step p ev = Some p' -> page_inv p'.
Proof.
  destruct p as [s tasks]. unfold page_inv. cbn [session pending].
  intros Hinv Hstep. destruct ev as [files| | |i a]; cbn in Hstep.
  - (* Drop *)
    injection Hstep as <-. unfold dispatch.
    destruct files as [|f0 rest]; cbn; rewrite app_nil_r.
    + exact Hinv.
    + destruct Hinv as [(Hl & Hr & He & Ht)|(Hl & Hp & _)]; [left|right]; auto.
  - (* ClickAnalyze *)
    injection Hstep as <-. unfold dispatch.
    destruct Hinv as [(Hl & Hr & He & Ht)|(Hl & Hp & Hre)].
    + change (AnalyzeButton_onClick (handleAnalyze (file s)) (isLoading s) (file s))
        with (analyze_click s).
      rewrite (analyze_click_disabled s (or_intror Hl)). cbn. rewrite app_nil_r.
      left; auto.
    + destruct (file s) as [f|] eqn:Hf.
      * unfold AnalyzeButton_onClick, AnalyzeButton_disabled. rewrite Hl. cbn [orb].
        destruct (handleAnalyze_task f s) as (k & Hrun & Htask).
        rewrite Hrun. cbn. subst tasks. left. repeat (split; [reflexivity|]).
        eexists. split; [reflexivity | exact Htask].
      * cbn. rewrite app_nil_r. right; auto.
  - (* ClickReset *)
    injection Hstep as <-. unfold dispatch. cbn. rewrite app_nil_r.
    destruct Hinv as [(Hl & Hr & He & Ht)|(Hl & Hp & _)]; [left|right]; auto.
  - (* Settle *)
    destruct Hinv as [(Hl & Hr & He & t & Hp & Ht)|(Hl & Hp & _)]; subst tasks.
    + destruct i as [|i]; cbn in Hstep; [|destruct i; discriminate].
      destruct (resume t a) as [k|] eqn:Hk; [|discriminate].
      injection Hstep as <-. unfold dispatch.
      pose proof (resume_analyze_task t a k Ht Hk) as Hc.
      destruct (run_closing k s Hc) as [(data & E)|[(msg & E)|(t' & E & Ht')]];
        rewrite E; cbn.
      * right. repeat split; auto.
      * right. repeat split; auto.
      * left. repeat (split; [assumption|]). exists t'. split; [reflexivity|assumption].
    + destruct i; discriminate.
Qed.

Lemma page_inv_reachable (p : Page) : reachable p -> page_inv p.
Proof.
  induction 1 as [|p p' ev _ IH Hstep].
  - right. cbn. auto.
  - exact (page_inv_step p p' ev IH Hstep).
Qed.

Lemma reachable_run_events (evs : list Event) (p p' : Page) :
  reachable p -> run_events evs p = Some p' -> reachable p'.
Proof.
  revert p. induction evs as [|ev evs IH]; intros p Hp; cbn.
  - intros E. injection E as <-. exact Hp.
  - destruct (step p ev) as [p1|] eqn:E1; [|discriminate].
    apply IH. exact (reachable_step p p1 ev Hp E1).
Qed.

(** Once nothing is pending, the page is not loading. *)
Lemma settled_not_loading (p : Page) :
  reachable p -> pending p = [] -> isLoading (session p) = false.
Proof.
  intros Hp E.
  destruct (page_inv_reachable p Hp) as [(_ & _ & _ & t & E' & _)|(Hl & _)];
    [congruence | exact Hl].
Qed.

(** While the page is loading there is no result, so the reset button,
    which [ResultDisplay] holds, is not on the page. *)
Lemma loading_shows_no_result (p : Page) :
  reachable p -> isLoading (session p) = true ->
  resultDisplay (VoiceGuardPage_render (session p)) = None.
Proof.
  intros Hp Hl.
  destruct (page_inv_reachable p Hp) as [(_ & Hr & _)|(Hl' & _)]; [|congruence].
  cbn. rewrite Hr. reflexivity.
Qed.

(** *** A request settling while the user goes on *)

Lemma handleAnalyze_fetch_cont (s : Session) (f : File) :
  file s = Some f -> isLoading s = false ->
  exists s' k,
    step {| session := s; pending := [] |} ClickAnalyze
    = Some {| session := s'; pending := [OnFetch (request_for f) k] |}
    /\ waiting {| session := s'; pending := [OnFetch (request_for f) k] |}
    /\ fetch_cont k.
Proof.
  intros Hf Hl. cbn [step session pending]. fold (analyze_click s).
  rewrite (analyze_click_enabled s f Hf Hl). do 2 eexists.
  split; [reflexivity|]. split; [repeat split|].
  split; [intros e s'; reflexivity|]. split.
  - intros resp Hok s'. cbn. rewrite Hok. reflexivity.
  - intros resp Hok. eexists. split.
    + intros s'. cbn. rewrite Hok. reflexivity.
    + split; intros x s'; reflexivity.
Qed.

Lemma waiting_user_event (p : Page) (ev : Event) :
  waiting p -> user_event ev ->
  exists p', step p ev = Some p' /\ pending p' = pending p /\ waiting p'.
Proof.
  destruct p as [s tasks]. unfold waiting. cbn [session pending].
  intros (Hl & Hr & He) Hu.
  destruct ev as [files| | |i a]; [| | |contradiction]; cbn [step session pending].
  - eexists. split; [reflexivity|]. unfold dispatch.
    destruct files as [|f0 rest]; cbn; rewrite app_nil_r; auto.
  - fold (analyze_click s). rewrite (analyze_click_disabled s (or_intror Hl)).
    eexists. split; [reflexivity|]. unfold dispatch. cbn. rewrite app_nil_r. auto.
  - eexists. split; [reflexivity|]. unfold dispatch. cbn. rewrite app_nil_r. auto.
Qed.

Lemma waiting_user_events (evs : list Event) (p : Page) :
  waiting p -> Forall user_event evs ->
  exists p', run_events evs p = Some p' /\ pending p' = pending p /\ waiting p'.
Proof.
  revert p. induction evs as [|ev evs IH]; intros p Hw Hu.
  - exists p. auto.
  - inversion Hu as [|? ? Hev Hevs]; subst.
    destruct (waiting_user_event p ev Hw Hev) as (p1 & E1 & Hp1 & Hw1).
    destruct (IH p1 Hw1 Hevs) as (p' & E & Hp' & Hw').
    exists p'. cbn. rewrite E1. split; [exact E|]. split; [congruence | exact Hw'].
Qed.

Lemma run_events_app (evs1 evs2 : list Event) (p p1 : Page) :
  run_events evs1 p = Some p1 ->
  run_events (evs1 ++ evs2) p = run_events evs2 p1.
Proof.
  revert p. induction evs1 as [|ev evs1 IH]; intros p; cbn.
  - intros E. injection E as <-. reflexivity.
  - destruct (step p ev) as [p'|]; [apply IH | discriminate].
Qed.

(** With a file selected and nothing pending, the click on the analyze
    button, whatever the user does while the request is out and while the
    body is read, and the answers [a] and [b] lead to a page with nothing
    pending that is not loading and shows the outcome of [a] and [b]. *)
Theorem analyze_settles_interleaved
    (s : Session) (f : File) (evs1 evs2 : list Event)
    (a : Settled Response) (b : Settled AnalysisResult) :
  file s = Some f -> isLoading s = false ->
  Forall user_event evs1 -> Forall user_event evs2 ->
  exists p',
    run_events (ClickAnalyze :: evs1 ++ settlement a evs2 b)
               {| session := s; pending := [] |} = Some p'
    /\ pending p' = []
    /\ isLoading (session p') = false
    /\ outcome a b (session p').
Proof.
  intros Hf Hl Hu1 Hu2.
  destruct (handleAnalyze_fetch_cont s f Hf Hl) as (s0 & k & E0 & Hw0 & Hk).
  destruct (waiting_user_events evs1 _ Hw0 Hu1) as (p1 & E1 & Hp1 & Hw1).
  cbn [run_events]. rewrite E0, (run_events_app evs1 _ _ p1 E1). clear E0 E1 Hw0.
  destruct p1 as [s1 tasks]. cbn [pending] in Hp1. subst tasks.
  destruct Hw1 as (Hl1 & Hr1 & He1). cbn [session] in *.
  destruct Hk as (Hrej & Hbad & Hgood).
  unfold settlement, outcome.
  destruct a as [resp|e].
  - destruct (ok resp) eqn:Hok.
    + destruct (Hgood resp Hok) as (k' & Hrun & Hk').
      cbn [run_events step session pending nth_error resume remove_nth].
      unfold dispatch at 1. rewrite Hrun. cbn [app spawned].
      assert (Hw2 : waiting {| session := s1; pending := [OnJson resp k'] |})
        by (repeat split; assumption).
      destruct (waiting_user_events evs2 _ Hw2 Hu2) as (p2 & E2 & Hp2 & Hw2').
      rewrite (run_events_app evs2 _ _ p2 E2).
      destruct p2 as [s2 tasks2]. cbn [pending] in Hp2. subst tasks2.
      destruct Hw2' as (Hl2 & Hr2 & He2). cbn [session] in *.
      destruct Hk' as (Hjrej & Hjok).
      cbn [run_events step session pending nth_error resume remove_nth].
      unfold dispatch.
      destruct b as [data|e].
      * rewrite (Hjok data s2). eexists. split; [reflexivity|]. cbn. auto.
      * rewrite (Hjrej e s2). eexists. split; [reflexivity|]. cbn. auto.
    + cbn [run_events step session pending nth_error resume remove_nth].
      unfold dispatch. rewrite (Hbad resp Hok s1).
      eexists. split; [reflexivity|]. cbn. auto.
  - cbn [run_events step session pending nth_error resume remove_nth].
    unfold dispatch. rewrite (Hrej e s1).
    eexists. split; [reflexivity|]. cbn. auto.
Qed.

Lemma analyze_settles_interleaved_witness :
  let s := {| file := Some song; result := None; isLoading := false;
              error := Some "Server error: Bad Gateway" |} in
  let other := {| name := "b.mp3"; mime := "audio/mpeg"; bytes := [] |} in
  let a := Fulfilled {| status := 200; statusText := "OK" |} in
  let b := Fulfilled (sample_result "data:") in
  exists p',
    run_events (ClickAnalyze :: [Drop [other]; ClickAnalyze; ClickReset]
                  ++ settlement a [Drop [song]] b)
               {| session := s; pending := [] |} = Some p'
    /\ pending p' = []
    /\ isLoading (session p') = false
    /\ outcome a b (session p').
Proof.
  intros s other a b.
  apply (analyze_settles_interleaved s song [Drop [other]; ClickAnalyze; ClickReset]
           [Drop [song]] a b); try reflexivity; repeat constructor.
Defined.

Lemma settled_not_loading_witness :
  exists p',
    run_events [Drop [song]; ClickAnalyze;
                Settle 0 (FetchSettled (Rejected (Error "Failed to fetch")))]
               page_load = Some p'
    /\ isLoading (session p') = false.
Proof.
  eexists. split; [reflexivity|].
  apply settled_not_loading; [|reflexivity].
  apply (reachable_run_events
           [Drop [song]; ClickAnalyze;
            Settle 0 (FetchSettled (Rejected (Error "Failed to fetch")))] page_load);
    [apply reachable_load | reflexivity].
Defined.

Lemma loading_shows_no_result_witness :
  exists p',
    run_events [Drop [song]; ClickAnalyze] page_load = Some p'
    /\ resultDisplay (VoiceGuardPage_render (session p')) = None.
Proof.
  eexists. split; [reflexivity|].
  apply loading_shows_no_result.
  - apply (reachable_run_events [Drop [song]; ClickAnalyze] page_load);
      [apply reachable_load | reflexivity].
  - reflexivity.
Defined.

Lemma perform_not_both (s : Session) (op : Operation) :
  isLoading s = false /\ ~ both_set s ->
  isLoading (perform s op) = false /\ ~ both_set (perform s op).
Proof.
  unfold both_set. intros (Hl & Hn). destruct op as [files|net|]; cbn.
  - destruct files as [|f0 rest]; cbn; [tauto|]. split; [assumption|]. tauto.
  - destruct (file s) as [f|] eqn:Hf; [|cbn; tauto].
    destruct (respond net (request_for f)) as [resp|e] eqn:H.
    + destruct (ok resp) eqn:Hok.
      * destruct (parse net resp) as [data|e] eqn:Hp.
        -- rewrite (exec_success net s f [] resp data H Hok Hp). cbn. tauto.
        -- rewrite (exec_json_rejected net s f [] resp e H Hok Hp). cbn. tauto.
      * rewrite (exec_not_ok net s f [] resp H Hok). cbn. tauto.
    + rewrite (exec_fetch_rejected net s f [] e H). cbn. tauto.
  - split; [assumption|]. tauto.
Qed.

Lemma perform_all_not_both (ops : list Operation) (s : Session) :
  isLoading s = false /\ ~ both_set s ->
  isLoading (perform_all ops s) = false /\ ~ both_set (perform_all ops s).
Proof.
  revert s. induction ops as [|op ops IH]; intros s H; [exact H|].
  cbn. apply IH. apply perform_not_both. exact H.
Qed.

(** C1.  In a session that is loading, the click on the analyze button
    does nothing: the button is disabled, so the program it runs is
    empty, the session and the pending tasks stay as they are and no
    request is sent.  And no sequence of events leads the page to a
    state with more than one request in flight. *)
Theorem C1_analyze_while_loading (s : Session) (tasks : list Task) (net : Network) :
  isLoading s = true ->
  AnalyzeButton_disabled (isLoading s) (file s) = true
  /\ run (analyze_click s) s = (s, Finished)
  /\ exec net (analyze_click s) s [] = (s, [], None)
  /\ step {| session := s; pending := tasks |} ClickAnalyze
     = Some {| session := s; pending := tasks |}
  /\ (forall p, reachable p -> (in_flight p <= 1)%nat).
Proof.
  intros Hl.
  split. { unfold AnalyzeButton_disabled. rewrite Hl. apply orb_true_r. }
  pose proof (analyze_click_disabled s (or_intror Hl)) as Hc.
  rewrite Hc. split; [reflexivity|]. split; [reflexivity|]. split.
  - cbn. fold (analyze_click s). rewrite Hc. unfold dispatch. cbn.
    rewrite app_nil_r. reflexivity.
  - intros p Hp. unfold in_flight.
    destruct (page_inv_reachable p Hp) as [(_ & _ & _ & t & E & _)|(_ & E & _)];
      rewrite E; cbn; lia.
Qed.

Lemma C1_analyze_while_loading_witness :
  let s := loading song in
  let net := always (Rejected (Error "Failed to fetch")) (Rejected (Error EmptyString)) in
  AnalyzeButton_disabled (isLoading s) (file s) = true
  /\ run (analyze_click s) s = (s, Finished)
  /\ exec net (analyze_click s) s [] = (s, [], None)
  /\ step {| session := s; pending := [] |} ClickAnalyze
     = Some {| session := s; pending := [] |}
  /\ (forall p, reachable p -> (in_flight p <= 1)%nat).
Proof.
  intros s net. apply (C1_analyze_while_loading s [] net). reflexivity.
Defined.

(** C9.  No session shows a result and an error at once: neither one
    reached from the initial session by drop, analyze and reset
    operations, each analyze run to its end against any network, nor
    the session of a page reached by any sequence of events. *)
Theorem C9_result_or_error (ops : list Operation) (p : Page) :
  reachable p ->
  ~ both_set (perform_all ops initial) /\ ~ both_set (session p).
Proof.
  intros Hp. split.
  - apply (perform_all_not_both ops initial). unfold both_set. cbn. tauto.
  - unfold both_set.
    destruct (page_inv_reachable p Hp) as [(_ & Hr & _)|(_ & _ & [H|H])];
      intros (H1 & H2); congruence.
Qed.

Lemma C9_result_or_error_witness :
  let ok200 := always (Fulfilled {| status := 200; statusText := "OK" |})
                      (Fulfilled (sample_result "data:")) in
  let down := always (Rejected (Error "Failed to fetch")) (Rejected (Error EmptyString)) in
  let ops := [acceptDrop [song]; analyze ok200; acceptDrop [song]; analyze down; reset] in
  let p := {| session := {| file := Some song; result := None; isLoading := false;
                            error := Some "Server error: Internal Server Error" |};
              pending := [] |} in
  ~ both_set (perform_all ops initial) /\ ~ both_set (session p).
Proof.
  intros ok200 down ops p.
  apply (C9_result_or_error ops p).
  apply (reachable_run_events
           [Drop [song]; ClickAnalyze; ClickAnalyze;
            Settle 0 (FetchSettled
                        (Fulfilled {| status := 500;
                                      statusText := "Internal Server Error" |}))]
           page_load p reachable_load).
  reflexivity.
Defined.

(** *** Reading the percentages back *)

Example read_9200 : read_hundredths "92.00" = Some 9200%Z.
Proof. reflexivity. Qed.

Lemma no_point_app (a b : string) : no_point a -> no_point b -> no_point (a ++ b).
Proof. induction a as [|c a IH]; cbn; [auto|]. intros (H & Ha) Hb. auto. Qed.

Lemma no_point_string_of_uint (d : Decimal.uint) : no_point (NilEmpty.string_of_uint d).
Proof. induction d; cbn; auto. Qed.

Lemma split_point_app (a b : string) :
  no_point a -> split_point (a ++ "." ++ b) = Some (a, b).
Proof.
  change ("." ++ b) with (String "." b).
  induction a as [|c a IH]; cbn; [reflexivity|].
  intros (H & Ha). rewrite H, (IH Ha). reflexivity.
Qed.

Lemma substring_prefix (j : nat) (m : string) :
  (j <= String.length m)%nat ->
  substring 0 j m ++ substring j (String.length m - j) m = m
  /\ String.length (substring j (String.length m - j) m) = (String.length m - j)%nat
  /\ (no_point m -> no_point (substring 0 j m)).
Proof.
  revert m. induction j as [|j IH]; intros m Hj.
  - rewrite Nat.sub_0_r. destruct m as [|c m]; cbn; [auto|].
    assert (E : forall t, substring 0 (String.length t) t = t).
    { induction t as [|c' t IHt]; cbn; [reflexivity | rewrite IHt; reflexivity]. }
    rewrite E. auto.
  - destruct m as [|c m]; cbn in Hj; [lia|].
    destruct (IH m ltac:(lia)) as (H1 & H2 & H3). cbn.
    rewrite H1. split; [reflexivity|]. split; [exact H2|].
    intros (Hc & Hm). auto.
Qed.

Lemma concat_repeat_zeros (z : nat) : String.concat EmptyString (repeat "0" z) = zeros z.
Proof.
  induction z as [|z IH]; [reflexivity|].
  destruct z as [|z]; [reflexivity|].
  cbn [repeat String.concat] in *. rewrite IH. reflexivity.
Qed.

Lemma uint_of_zeros (z : nat) (t : string) (d : Decimal.uint) :
  NilEmpty.uint_of_string t = Some d ->
  exists d', NilEmpty.uint_of_string (zeros z ++ t) = Some d' /\ N.of_uint d' = N.of_uint d.
Proof.
  intros H. induction z as [|z (d' & E & Hd)]; cbn.
  - exists d. auto.
  - rewrite E. exists (Decimal.D0 d'). split; [reflexivity | exact Hd].
Qed.

Lemma length_zeros_app (z : nat) (t : string) :
  String.length (zeros z ++ t) = (z + String.length t)%nat.
Proof. induction z as [|z IH]; cbn; [reflexivity | rewrite IH; reflexivity]. Qed.

Lemma no_point_zeros (z : nat) : no_point (zeros z).
Proof. induction z; cbn; auto. Qed.

(** What [fixed_notation] writes with two decimals reads back as the
    number it was given. *)
Lemma read_fixed_notation (n : Z) :
  (0 <= n)%Z -> read_hundredths (fixed_notation n 2) = Some n.
Proof.
  intros Hn. unfold fixed_notation, digits.
  set (d := N.to_uint (Z.to_N n)).
  set (m0 := NilEmpty.string_of_uint d).
  rewrite concat_repeat_zeros.
  set (z := if (String.length m0 <=? 2)%nat then (2 + 1 - String.length m0)%nat else O).
  assert (Em : (if (String.length m0 <=? 2)%nat
                then zeros (2 + 1 - String.length m0) ++ m0 else m0) = zeros z ++ m0).
  { unfold z. destruct (String.length m0 <=? 2)%nat; reflexivity. }
  rewrite Em. clear Em.
  set (m := zeros z ++ m0).
  assert (Hk : (2 <= String.length m)%nat).
  { unfold m. rewrite length_zeros_app. unfold z.
    destruct (Nat.leb_spec (String.length m0) 2); lia. }
  assert (Hnp : no_point m).
  { apply no_point_app; [apply no_point_zeros | apply no_point_string_of_uint]. }
  destruct (substring_prefix (String.length m - 2) m ltac:(lia)) as (H1 & H2 & H3).
  replace (String.length m - (String.length m - 2))%nat with 2%nat in H1, H2 by lia.
  unfold read_hundredths. rewrite (split_point_app _ _ (H3 Hnp)), H2, H1. cbn [Nat.eqb].
  destruct (uint_of_zeros z m0 d (NilEmpty.usu d)) as (d' & E & Hd).
  fold m in E. rewrite E, Hd. unfold d.
  rewrite DecimalN.Unsigned.of_to, Z2N.id by exact Hn. reflexivity.
Qed.

(** *** Binary64 arithmetic behind the percentages

    [x * 100] and [a + b] on [float] are the operations [SFmul] and
    [SFadd] of the standard library's specification of binary64; the
    lemmas below bound what their rounding does to a probability, with
    every value counted in units of a fixed power of two. *)

Section Rounding.
Local Open Scope Z_scope.

Lemma digits2_pos_bounds (m : positive) :
  2 ^ (Zpos (digits2_pos m) - 1) <= Zpos m < 2 ^ Zpos (digits2_pos m).
Proof.
  induction m as [p IH|p IH|]; cbn [digits2_pos].
  - rewrite Pos2Z.inj_succ, Z.pow_succ_r by lia.
    replace (Z.succ (Zpos (digits2_pos p)) - 1) with (Z.succ (Zpos (digits2_pos p) - 1)) by lia.
    rewrite Z.pow_succ_r by lia. lia.
  - rewrite Pos2Z.inj_succ, Z.pow_succ_r by lia.
    replace (Z.succ (Zpos (digits2_pos p)) - 1) with (Z.succ (Zpos (digits2_pos p) - 1)) by lia.
    rewrite Z.pow_succ_r by lia. lia.
  - cbn. lia.
Qed.

Lemma Zdigits2_le (m k : Z) : 0 <= m <= 2 ^ k -> 0 <= k -> Zdigits2 m <= k + 1.
Proof.
  intros [H0 Hk] Hk0. destruct m as [|p|p]; cbn [Zdigits2]; try lia.
  destruct (digits2_pos_bounds p) as [Hl _].
  destruct (Z.le_gt_cases (Zpos (digits2_pos p)) (k + 1)) as [|Hgt]; [assumption|].
  exfalso. assert (2 ^ (k + 1) <= 2 ^ (Zpos (digits2_pos p) - 1)).
  { apply Z.pow_le_mono_r; lia. }
  rewrite Z.pow_add_r in H by lia. lia.
Qed.

Lemma shr_1_m (mrs : shr_record) :
  0 <= shr_m mrs -> shr_m (shr_1 mrs) = shr_m mrs / 2.
Proof.
  destruct mrs as [m r s]. cbn [shr_m]. intros H.
  destruct m as [|[p|p|]|p]; cbn [shr_1 shr_m]; try lia;
    try reflexivity; Z.div_mod_to_equations; lia.
Qed.

Lemma pow2_xI (p : positive) : 2 ^ Zpos p~1 = 2 * (2 ^ Zpos p * 2 ^ Zpos p).
Proof.
  rewrite (Pos2Z.inj_xI p).
  replace (2 * Zpos p + 1) with (1 + (Zpos p + Zpos p)) by lia.
  rewrite (Z.pow_add_r 2 1) by lia. rewrite (Z.pow_add_r 2 (Zpos p)) by lia.
  reflexivity.
Qed.

Lemma pow2_xO (p : positive) : 2 ^ Zpos p~0 = 2 ^ Zpos p * 2 ^ Zpos p.
Proof.
  rewrite (Pos2Z.inj_xO p).
  replace (2 * Zpos p) with (Zpos p + Zpos p) by lia.
  rewrite (Z.pow_add_r 2 (Zpos p)) by lia. reflexivity.
Qed.

Lemma iter_pos_shr_1 (p : positive) (mrs : shr_record) :
  0 <= shr_m mrs ->
  shr_m (iter_pos shr_1 p mrs) = shr_m mrs / 2 ^ Zpos p.
Proof.
  revert mrs. induction p as [p IH|p IH|]; intros mrs H; cbn [iter_pos].
  - assert (Hp : 0 < 2 ^ Zpos p) by (apply Z.pow_pos_nonneg; lia).
    assert (H1 : 0 <= shr_m (shr_1 mrs)).
    { rewrite shr_1_m by assumption. apply Z.div_pos; lia. }
    assert (H2 : 0 <= shr_m (iter_pos shr_1 p (shr_1 mrs))).
    { rewrite IH by assumption. apply Z.div_pos; lia. }
    rewrite IH, IH, shr_1_m by assumption.
    rewrite !Z.div_div by lia. rewrite pow2_xI. reflexivity.
  - assert (Hp : 0 < 2 ^ Zpos p) by (apply Z.pow_pos_nonneg; lia).
    assert (H2 : 0 <= shr_m (iter_pos shr_1 p mrs)).
    { rewrite IH by assumption. apply Z.div_pos; lia. }
    rewrite IH, IH by assumption.
    rewrite !Z.div_div by lia. rewrite pow2_xO. reflexivity.
  - rewrite shr_1_m by assumption. reflexivity.
Qed.

Lemma round_nearest_even_cases (m : Z) (l : location) :
  round_nearest_even m l = m \/ round_nearest_even m l = m + 1.
Proof.
  destruct l as [|[| |]]; cbn; try destruct (Z.even m); auto.
Qed.

(** One [shr_fexp] on an exact input: no shift, or a shift to the
    exponent [fexp] asks for, the mantissa cut accordingly. *)
Lemma shr_fexp_exact (m e : Z) :
  0 <= m ->
  let n := fexp prec emax (Zdigits2 m + e) - e in
  let '(mrs, e') := shr_fexp prec emax m e loc_Exact in
  (n <= 0 /\ e' = e /\ mrs = {| shr_m := m; shr_r := false; shr_s := false |})
  \/ (0 < n /\ e' = e + n /\ shr_m mrs = m / 2 ^ n).
Proof.
  intros Hm n. unfold shr_fexp. fold n. unfold shr. cbn [shr_record_of_loc].
  destruct n as [|p|p] eqn:Hn.
  - left. repeat split; lia.
  - right. split; [lia|]. split; [reflexivity|].
    apply iter_pos_shr_1. cbn. exact Hm.
  - left. repeat split; lia.
Qed.

Lemma fexp_eq (e : Z) : fexp prec emax e = Z.max (e - 53) (-1074).
Proof. reflexivity. Qed.

(** What [binary_round_aux] makes of an exact positive input: the
    mantissa [m] (zero when the input rounds to zero) and the shift
    [n] of the exponent.  Either nothing was shifted and the value is
    kept, or the result is within [2^n] units of the input and the new
    exponent is at most one above the one [fexp] asks for. *)
Lemma binary_round_aux_exact (sx : bool) (mx : positive) (ex : Z) :
  exists m n : Z,
    0 <= m /\ 0 <= n
    /\ binary_round_aux prec emax sx (Zpos mx) ex loc_Exact =
       match m with
       | Z0 => S754_zero sx
       | Zpos q => if ex + n <=? emax - prec then S754_finite sx q (ex + n)
                   else S754_infinity sx
       | Zneg _ => S754_nan
       end
    /\ ((n = 0 /\ m = Zpos mx)
        \/ (ex + n <= fexp prec emax (Zpos (digits2_pos mx) + ex) + 1
            /\ Z.abs (m * 2 ^ n - Zpos mx) <= 2 ^ n)).
Proof.
  unfold binary_round_aux.
  pose proof (shr_fexp_exact (Zpos mx) ex ltac:(lia)) as H1. cbv zeta in H1.
  cbn [Zdigits2] in H1.
  set (d := Zpos (digits2_pos mx)) in *.
  set (n1 := fexp prec emax (d + ex) - ex) in *.
  destruct (shr_fexp prec emax (Zpos mx) ex loc_Exact) as [mrs' e'] eqn:E1.
  destruct H1 as [(Hn1 & He' & Hm')|(Hn1 & He' & Hm')].
  - (* no shift: the second pass sees the same input *)
    subst mrs' e'. cbn [shr_m loc_of_shr_record round_nearest_even].
    rewrite E1. cbn [shr_m].
    exists (Zpos mx), 0. rewrite Z.add_0_r.
    repeat split; lia.
  - set (m1 := shr_m mrs') in *.
    assert (HP : 0 < 2 ^ n1) by (apply Z.pow_pos_nonneg; lia).
    assert (Hdiv : Zpos mx = 2 ^ n1 * m1 + Zpos mx mod 2 ^ n1).
    { rewrite Hm'. apply Z.div_mod. lia. }
    assert (Hmod : 0 <= Zpos mx mod 2 ^ n1 < 2 ^ n1) by (apply Z.mod_pos_bound; lia).
    assert (Hm1 : 0 <= m1) by (rewrite Hm'; apply Z.div_pos; lia).
    set (m2 := round_nearest_even m1 (loc_of_shr_record mrs')).
    assert (Hm2 : m2 = m1 \/ m2 = m1 + 1) by apply round_nearest_even_cases.
    assert (Hm2' : 0 <= m2) by lia.
    pose proof (shr_fexp_exact m2 e' Hm2') as H2. cbv zeta in H2.
    set (n2 := fexp prec emax (Zdigits2 m2 + e') - e') in *.
    destruct (shr_fexp prec emax m2 e' loc_Exact) as [mrs'' e''] eqn:E2.
    assert (He1 : e' = fexp prec emax (d + ex)) by (unfold n1 in He'; lia).
    assert (Hn2 : n2 <= 1).
    { pose proof (digits2_pos_bounds mx) as Hd. fold d in Hd.
      destruct (Z.le_gt_cases n1 d) as [Hle|Hgt].
      - assert (Hlt : m1 < 2 ^ (d - n1)).
        { rewrite Hm'. apply Z.div_lt_upper_bound; [lia|].
          rewrite <- Z.pow_add_r by lia. replace (n1 + (d - n1)) with d by lia. lia. }
        assert (Hdig : Zdigits2 m2 <= d - n1 + 1) by (apply Zdigits2_le; lia).
        unfold n2. rewrite fexp_eq. rewrite He1 in *. rewrite fexp_eq in *.
        unfold n1 in Hdig. rewrite fexp_eq in Hdig. lia.
      - assert (Hz : m1 = 0).
        { rewrite Hm'. apply Z.div_small. split; [lia|].
          apply Z.lt_le_trans with (2 ^ d); [lia|].
          apply Z.pow_le_mono_r; lia. }
        assert (Hdig : Zdigits2 m2 <= 0 + 1) by (apply Zdigits2_le; cbn; lia).
        unfold n2. rewrite fexp_eq. rewrite He1. rewrite fexp_eq. lia. }
    destruct H2 as [(Hn2' & He'' & Hm'')|(Hn2' & He'' & Hm'')].
    + subst mrs''. cbn [shr_m]. exists m2, n1.
      split; [lia|]. split; [lia|]. split.
      { subst e'' e'. reflexivity. }
      right. split; [lia|]. apply Z.abs_le. destruct Hm2 as [->| ->]; lia.
    + assert (n2 = 1) by lia.
      assert (Hm3 : shr_m mrs'' = m2 / 2).
      { rewrite Hm''. replace n2 with 1 by lia. reflexivity. }
      assert (H3 : m2 = 2 * (m2 / 2) + m2 mod 2) by (apply Z.div_mod; lia).
      assert (H4 : 0 <= m2 mod 2 < 2) by (apply Z.mod_pos_bound; lia).
      assert (H5 : 0 <= m2 / 2) by (apply Z.div_pos; lia).
      exists (m2 / 2), (n1 + 1).
      split; [lia|]. split; [lia|]. split.
      { rewrite Hm3. subst e'' e'. replace (ex + n1 + n2) with (ex + (n1 + 1)) by lia.
        reflexivity. }
      right. split; [lia|].
      rewrite Z.pow_add_r by lia. change (2 ^ 1) with 2.
      apply Z.abs_le. destruct Hm2 as [E| E]; nia.
Qed.

Lemma shl_align_value (mx : positive) (ex ex' : Z) :
  let '(mz, ez) := shl_align mx ex ex' in
  ez = Z.min ex ex' /\ Zpos mz = Zpos mx * 2 ^ (ex - ez).
Proof.
  unfold shl_align. destruct (ex' - ex) as [|d|d] eqn:Hd.
  - rewrite Z.sub_diag, Z.pow_0_r. lia.
  - rewrite Z.sub_diag, Z.pow_0_r. lia.
  - split; [lia|].
    replace (ex - ex') with (Zpos d) by lia.
    apply (Pos.iter_ind positive xO mx (fun p r => Zpos r = Zpos mx * 2 ^ Zpos p)).
    + rewrite (Pos2Z.inj_xO mx), Z.pow_1_r. lia.
    + intros p r IH. rewrite (Pos2Z.inj_xO r), IH, Pos2Z.inj_succ, Z.pow_succ_r by lia.
      lia.
Qed.

Lemma Prim2SF_0 : Prim2SF 0 = S754_zero false.
Proof. reflexivity. Qed.

Lemma Prim2SF_1 : Prim2SF 1 = S754_finite false 4503599627370496 (-52).
Proof. reflexivity. Qed.

Lemma Prim2SF_100 : Prim2SF 100 = S754_finite false 7036874417766400 (-46).
Proof. reflexivity. Qed.

Lemma SFcompare_finite (m1 m2 : positive) (e1 e2 : Z) :
  SFcompare (S754_finite false m1 e1) (S754_finite false m2 e2) =
  Some match e1 ?= e2 with
       | Lt => Lt
       | Gt => Gt
       | Eq => Pos.compare_cont Eq m1 m2
       end.
Proof. reflexivity. Qed.

Lemma probability_of_float (x : float) :
  (0 <=? x)%float = true -> (x <=? 1)%float = true -> probability (Prim2SF x).
Proof.
  rewrite !leb_spec, Prim2SF_0, Prim2SF_1.
  pose proof (Prim2SF_valid x) as Hv.
  destruct (Prim2SF x) as [s|s| |s m e]; unfold SFleb.
  - intros _ _. exact I.
  - destruct s; cbn [SFcompare]; intros; discriminate.
  - cbn [SFcompare]; intros; discriminate.
  - destruct s; [cbn [SFcompare]; intros; discriminate|].
    intros _. rewrite SFcompare_finite.
    unfold valid_binary, bounded, canonical_mantissa in Hv.
    apply andb_prop in Hv. destruct Hv as [Hc _].
    apply Z.eqb_eq in Hc. rewrite fexp_eq in Hc.
    pose proof (digits2_pos_bounds m) as [_ Hd].
    assert (Hm : Zpos m < 2 ^ 53).
    { apply Z.lt_le_trans with (1 := Hd). apply Z.pow_le_mono_r; lia. }
    destruct (Z.compare_spec e (-52)) as [He|He|He]; intros Hle; try discriminate;
      cbn [probability]; (split; [reflexivity|]).
    + split; [lia|]. subst e.
      rewrite Pos.compare_cont_spec in Hle. cbn [Pos.switch_Eq] in Hle.
      assert (Hm' : Zpos m <= 4503599627370496).
      { apply Pos2Z.pos_le_pos. unfold Pos.le. intros Hgt. rewrite Hgt in Hle.
        discriminate. }
      change (-52 + 1074) with 1022. clear Hle. lia.
    + split; [lia|].
      apply Z.le_trans with (2 ^ 53 * 2 ^ (e + 1074)).
      * apply Z.mul_le_mono_nonneg_r; [apply Z.pow_nonneg|]; lia.
      * rewrite <- Z.pow_add_r by lia. apply Z.pow_le_mono_r; lia.
Qed.

Lemma probability_mantissa (s : bool) (m : positive) (e : Z) :
  probability (S754_finite s m e) -> Zpos m <= 2 ^ (- e).
Proof.
  intros (_ & He & H).
  apply Z.mul_le_mono_pos_r with (p := 2 ^ (e + 1074)).
  - apply Z.pow_pos_nonneg; lia.
  - rewrite <- Z.pow_add_r by lia. replace (- e + (e + 1074)) with 1074 by lia.
    exact H.
Qed.

Lemma nearest_scaled_neg (q : positive) (e : Z) :
  e < 0 ->
  2 * 2 ^ (- e) * nearest_scaled q e 2 <= 200 * Zpos q + 2 ^ (- e)
  /\ 200 * Zpos q + 2 ^ (- e) < 2 * 2 ^ (- e) * (nearest_scaled q e 2 + 1).
Proof.
  intros He. unfold nearest_scaled.
  destruct (Z.leb_spec 0 e) as [|_]; [lia|].
  change (10 ^ Z.of_nat 2) with 100.
  assert (HB : 0 < 2 ^ (- e)) by (apply Z.pow_pos_nonneg; lia).
  assert (HD : 2 ^ (- e + 1) = 2 * 2 ^ (- e)).
  { rewrite Z.pow_add_r by lia. rewrite Z.pow_1_r. lia. }
  rewrite HD. clear HD.
  set (B := 2 ^ (- e)) in *. clearbody B.
  pose proof (Z.div_mod (2 * (Zpos q * 100) + B) (2 * B) ltac:(lia)) as H1.
  pose proof (Z.mod_pos_bound (2 * (Zpos q * 100) + B) (2 * B) ltac:(lia)) as H2.
  generalize dependent (Zpos q). intros z H1 H2.
  revert H1 H2.
  generalize ((2 * (z * 100) + B) / (2 * B)).
  generalize ((2 * (z * 100) + B) mod (2 * B)). intros r k H1 H2. nia.
Qed.

(** Multiplying a probability by 100: the rounded product is a zero or
    a positive finite value, below [2^7], within [2^(e'+1120)] of the
    exact product when both are counted in units of [2^-1120].  [y] is
    the product as [SFmul] returns it. *)
Lemma times_100 (s : bool) (m1 : positive) (e1 : Z) :
  probability (S754_finite s m1 e1) ->
  let X := units (S754_finite s m1 e1) in
  SF64mul (S754_finite s m1 e1) (S754_finite false 7036874417766400 (-46))
    = S754_zero false /\ 7036874417766400 * X <= 2 ^ 1075
  \/ exists (q : positive) (e : Z),
       SF64mul (S754_finite s m1 e1) (S754_finite false 7036874417766400 (-46))
         = S754_finite false q e
       /\ -1120 <= e <= -45
       /\ Z.abs (Zpos q * 2 ^ (e + 1120) - 7036874417766400 * X) <= 2 ^ (e + 1120).
Proof.
  intros Hp. pose proof (probability_mantissa s m1 e1 Hp) as HM.
  destruct Hp as (-> & He1 & HX). cbn [units].
  unfold SF64mul, SFmul. cbn [xorb].
  destruct (binary_round_aux_exact false (m1 * 7036874417766400) (e1 + -46))
    as (m & n & Hm & Hn & E & Hcase).
  rewrite E. clear E.
  pose proof (digits2_pos_bounds (m1 * 7036874417766400)) as [Hlo _].
  set (d := Zpos (digits2_pos (m1 * 7036874417766400))) in *.
  assert (Hmx : Zpos (m1 * 7036874417766400) = Zpos m1 * 7036874417766400)
    by apply Pos2Z.inj_mul.
  set (mx := Zpos (m1 * 7036874417766400)) in *. clearbody mx d.
  assert (HM0 : 0 < Zpos m1) by lia.
  set (M := Zpos m1) in *. clearbody M.
  assert (Hd : d + e1 <= 53).
  { assert (H : 2 ^ (d - 1) < 2 ^ (53 - e1)).
    { apply Z.le_lt_trans with (1 := Hlo). rewrite Hmx.
      rewrite Z.pow_add_r with (b := 53) (c := - e1) by lia.
      assert (0 < 2 ^ (- e1)) by (apply Z.pow_pos_nonneg; lia).
      generalize dependent (2 ^ (- e1)). intros A HA1 HA2. nia. }
    apply Z.pow_lt_mono_r_iff in H; lia. }
  assert (Hen : e1 + -46 + n <= -45).
  { destruct Hcase as [(-> & _)|(H & _)]; [lia|].
    rewrite fexp_eq in H. lia. }
  assert (Herr : Z.abs (m * 2 ^ n - mx) <= 2 ^ n).
  { destruct Hcase as [(-> & ->)|(_ & H)]; [|exact H].
    rewrite Z.pow_0_r. lia. }
  clear Hcase Hlo Hd d.
  (* everything in units of 2^-1120 *)
  assert (HN : 0 < 2 ^ n) by (apply Z.pow_pos_nonneg; lia).
  assert (HP : 0 < 2 ^ (e1 + 1074)) by (apply Z.pow_pos_nonneg; lia).
  assert (HS : 2 ^ (e1 + -46 + n + 1120) = 2 ^ n * 2 ^ (e1 + 1074)).
  { rewrite <- Z.pow_add_r by lia. f_equal. lia. }
  assert (HS' : 2 ^ (e1 + -46 + n + 1120) <= 2 ^ 1075).
  { apply Z.pow_le_mono_r; lia. }
  destruct m as [|q|q]; [left|right|lia].
  - split; [reflexivity|].
    rewrite HS in HS'. clear HS.
    generalize dependent (2 ^ n). generalize dependent (2 ^ (e1 + 1074)).
    intros P HX HP N Herr HN HS'.
    assert (mx * P <= N * P) by nia. nia.
  - exists q, (e1 + -46 + n).
    destruct (Z.leb_spec (e1 + -46 + n) (emax - prec)) as [_|H];
      [|unfold emax, prec in H; lia].
    split; [reflexivity|]. split; [lia|].
    rewrite HS. clear HS HS'.
    generalize dependent (Zpos q). intros Q _ Herr.
    generalize dependent (2 ^ n). generalize dependent (2 ^ (e1 + 1074)).
    intros P HX HP N HN Herr.
    apply Z.abs_le in Herr. apply Z.abs_le. nia.
Qed.

(** The integer [x.toFixed(2)] shows for [x] a probability times 100,
    against the probability itself. *)
Lemma percent_of_probability (x : float) :
  probability (Prim2SF x) ->
  exists n : Z,
    toFixed (x * 100) 2 = Some (fixed_notation n 2)
    /\ 2 * 2 ^ 1120 * n
       <= 200 * (7036874417766400 * units (Prim2SF x)) + 2 ^ 1120 + 2 ^ 1083
    /\ 200 * (7036874417766400 * units (Prim2SF x)) + 2 ^ 1120 - 2 ^ 1083
       < 2 * 2 ^ 1120 * (n + 1).
Proof.
  unfold toFixed. rewrite mul_spec, Prim2SF_100.
  destruct (Prim2SF x) as [s|s| |s m1 e1]; intros Hp; try contradiction.
  - exists 0. split; [reflexivity|]. cbn [units]. lia.
  - assert (HX : 0 <= units (S754_finite s m1 e1) <= 2 ^ 1074).
    { destruct Hp as (_ & He & H). cbn [units]. split; [|exact H].
      apply Z.mul_nonneg_nonneg; [lia|]. apply Z.pow_nonneg. lia. }
    destruct (times_100 s m1 e1 Hp) as [(E & H)|(q & e & E & He & Herr)];
      rewrite E; clear E.
    + exists 0. split; [reflexivity|].
      generalize dependent (units (S754_finite s m1 e1)). intros X HX H. lia.
    + assert (HS : 0 < 2 ^ (e + 1120)) by (apply Z.pow_pos_nonneg; lia).
      assert (HS' : 2 ^ (e + 1120) <= 2 ^ 1075) by (apply Z.pow_le_mono_r; lia).
      assert (HT : 2 ^ (- e) * 2 ^ (e + 1120) = 2 ^ 1120).
      { rewrite <- Z.pow_add_r by lia. f_equal. lia. }
      assert (HB : 0 < 2 ^ (- e)) by (apply Z.pow_pos_nonneg; lia).
      pose proof (nearest_scaled_neg q e ltac:(lia)) as [Hn1 Hn2].
      apply Z.abs_le in Herr.
      assert (Hbig : at_least_1e21 q e = false).
      { unfold at_least_1e21. destruct (Z.leb_spec 0 e) as [|_]; [lia|].
        apply Z.leb_gt. clear Hn1 Hn2 Hp.
        generalize dependent (units (S754_finite s m1 e1)). intros X HX Herr.
        generalize dependent (Zpos q). intros Q Herr.
        generalize dependent (2 ^ (e + 1120)). generalize dependent (2 ^ (- e)).
        intros B HB S HS HS' HT Herr.
        apply Z.mul_lt_mono_pos_r with (p := S); [exact HS|].
        replace (10 ^ 21 * B * S) with (10 ^ 21 * (B * S)) by ring.
        rewrite HT. lia. }
      rewrite Hbig. exists (nearest_scaled q e 2). split; [reflexivity|].
      clear Hbig Hp.
      generalize dependent (nearest_scaled q e 2). intros n Hn1 Hn2.
      generalize dependent (units (S754_finite s m1 e1)). intros X HX Herr.
      generalize dependent (Zpos q). intros Q Herr Hn1 Hn2.
      generalize dependent (2 ^ (e + 1120)). generalize dependent (2 ^ (- e)).
      intros B HB Hn1 Hn2 S HS HS' HT Herr.
      assert (H1 : 2 * (B * S) * n <= 200 * (Q * S) + B * S) by nia.
      assert (H2 : 200 * (Q * S) + B * S < 2 * (B * S) * (n + 1)) by nia.
      rewrite HT in H1, H2. lia.
Qed.

Lemma SFeqb_one (r : spec_float) :
  SFeqb r (S754_finite false 4503599627370496 (-52)) = true ->
  r = S754_finite false 4503599627370496 (-52).
Proof.
  unfold SFeqb. destruct r as [s|s| |s m e].
  - cbn [SFcompare]. destruct s; discriminate.
  - cbn [SFcompare]. destruct s; discriminate.
  - discriminate.
  - destruct s; [cbn [SFcompare]; discriminate|].
    rewrite SFcompare_finite.
    destruct (Z.compare_spec e (-52)) as [He|He|He]; try discriminate.
    rewrite Pos.compare_cont_spec. cbn [Pos.switch_Eq].
    destruct (Pos.compare_spec m 4503599627370496) as [Hm|Hm|Hm]; try discriminate.
    intros _. rewrite He, Hm. reflexivity.
Qed.

Lemma units_probability (x : spec_float) :
  probability x -> 0 <= units x <= 2 ^ 1074.
Proof.
  destruct x as [s|s| |s m e]; cbn [probability units]; try contradiction.
  - intros _. split; [lia|]. apply Z.pow_nonneg. lia.
  - intros (_ & He & H). split; [|exact H].
    apply Z.mul_nonneg_nonneg; [lia|]. apply Z.pow_nonneg. lia.
Qed.

(** Two probabilities whose binary64 sum is 1: their exact sum is
    within [2^-52] of 1. *)
Lemma sum_of_probabilities (a b : spec_float) :
  probability a -> probability b ->
  SFeqb (SF64add a b) (S754_finite false 4503599627370496 (-52)) = true ->
  Z.abs (units a + units b - 2 ^ 1074) <= 2 ^ 1022.
Proof.
  intros Ha Hb H. apply SFeqb_one in H.
  assert (Hone : units (S754_finite false 4503599627370496 (-52)) = 2 ^ 1074)
    by (vm_compute; reflexivity).
  destruct a as [sa|sa| |sa ma ea]; try contradiction;
    destruct b as [sb|sb| |sb mb eb]; try contradiction.
  - unfold SF64add, SFadd in H. destruct sa, sb; discriminate.
  - unfold SF64add, SFadd in H. rewrite H, Hone. cbn [units]. lia.
  - unfold SF64add, SFadd in H. rewrite H, Hone. cbn [units]. lia.
  - clear Hone. destruct Ha as (-> & Hea & _), Hb as (-> & Heb & _).
    unfold SF64add, SFadd in H. cbn [cond_Zopp] in H.
    set (ez := Z.min ea eb) in *.
    assert (Hez : ez = Z.min ea eb) by reflexivity. clearbody ez.
    pose proof (shl_align_value ma ea ez) as Ha.
    pose proof (shl_align_value mb eb ez) as Hb.
    destruct (shl_align ma ea ez) as [ma' ea'].
    destruct (shl_align mb eb ez) as [mb' eb'].
    destruct Ha as (Hea' & Hma), Hb as (Heb' & Hmb).
    cbn [fst Z.add binary_normalize] in H. unfold binary_round in H.
    set (ef := fexp prec emax (Zpos (digits2_pos (ma' + mb')) + ez)) in *.
    assert (Hef : -1074 <= ef) by (unfold ef; rewrite fexp_eq; lia).
    clearbody ef.
    pose proof (shl_align_value (ma' + mb') ez ef) as Hz.
    destruct (shl_align (ma' + mb') ez ef) as [mz ez'].
    destruct Hz as (Hez' & Hmz).
    destruct (binary_round_aux_exact false mz ez') as (m & n & Hm & Hn & E & Hcase).
    rewrite E in H. clear E.
    assert (Hres : m = 4503599627370496 /\ ez' + n = -52).
    { destruct m as [|q|q]; try discriminate.
      destruct (ez' + n <=? emax - prec); [|discriminate].
      injection H as -> <-. split; reflexivity. }
    destruct Hres as (-> & Hn'). clear H.
    cbn [units].
    (* the exact sum in units of 2^-1074 *)
    assert (Hsum : Zpos mz * 2 ^ (ez' + 1074)
                   = Zpos ma * 2 ^ (ea + 1074) + Zpos mb * 2 ^ (eb + 1074)).
    { assert (Ea : 2 ^ (ea + 1074) = 2 ^ (ea - ea') * (2 ^ (ez - ez') * 2 ^ (ez' + 1074))).
      { rewrite <- !Z.pow_add_r by lia. f_equal. lia. }
      assert (Eb : 2 ^ (eb + 1074) = 2 ^ (eb - eb') * (2 ^ (ez - ez') * 2 ^ (ez' + 1074))).
      { rewrite <- !Z.pow_add_r by lia. f_equal. lia. }
      rewrite Hmz, Pos2Z.inj_add, Hma, Hmb, Ea, Eb. ring. }
    rewrite <- Hsum. clear Hsum Hmz Hma Hmb.
    assert (HP : 0 < 2 ^ (ez' + 1074)) by (apply Z.pow_pos_nonneg; lia).
    assert (HNP : 2 ^ n * 2 ^ (ez' + 1074) = 2 ^ 1022).
    { rewrite <- Z.pow_add_r by lia. f_equal. lia. }
    assert (Herr : Z.abs (4503599627370496 * 2 ^ n - Zpos mz) <= 2 ^ n).
    { destruct Hcase as [(-> & <-)|(_ & Hc)]; [|exact Hc].
      rewrite Z.pow_0_r. lia. }
    clear Hcase.
    generalize dependent (Zpos mz). intros Z Herr.
    generalize dependent (2 ^ (ez' + 1074)). generalize dependent (2 ^ n).
    intros N Herr P HP HNP.
    apply Z.abs_le in Herr. apply Z.abs_le.
    assert (H1 : 4503599627370496 * (N * P) - Z * P <= N * P) by nia.
    assert (H2 : - (N * P) <= 4503599627370496 * (N * P) - Z * P) by nia.
    rewrite HNP in H1, H2. lia.
Qed.
End Rounding.

(** [rounds_to_hundredths] fixes the number of hundredths up to one. *)
Lemma rounds_to_hundredths_close (x : float) (n n' : Z) :
  rounds_to_hundredths x n -> rounds_to_hundredths x n' -> (Z.abs (n - n') <= 1)%Z.
Proof.
  unfold rounds_to_hundredths. cbv zeta.
  generalize (units (Prim2SF x)). intros X H H'.
  apply Z.abs_le in H. apply Z.abs_le in H'. apply Z.abs_le. lia.
Qed.

(** C10.  For a result whose two probabilities lie between 0 and 1 and
    add up to 1 in binary64 arithmetic, the spoof percentage the page
    shows is [(p_spoof * 100).toFixed(2)] and the bonafide percentage is
    [(p_bonafide * 100).toFixed(2)]; each text is a fixed notation with
    two decimals which, read back as a number of hundredths, is 100
    times its own probability rounded to two decimals; and the two
    numbers [ns] and [nb] satisfy [9999 <= ns + nb <= 10001]: the
    percentages sum to 100 within one hundredth. *)
Theorem C10_percentages_sum (r : AnalysisResult) :
  let p := probabilities r in
  (0 <=? p_bonafide p)%float = true -> (p_bonafide p <=? 1)%float = true ->
  (0 <=? p_spoof p)%float = true -> (p_spoof p <=? 1)%float = true ->
  (p_bonafide p + p_spoof p =? 1)%float = true ->
  exists (ts tb : string) (ns nb : Z),
    spoofProbability (ResultDisplay r) = Some ts
    /\ bonafideProbability (ResultDisplay r) = Some tb
    /\ toFixed (p_spoof p * 100) 2 = Some ts
    /\ toFixed (p_bonafide p * 100) 2 = Some tb
    /\ ts = fixed_notation ns 2 /\ tb = fixed_notation nb 2
    /\ read_hundredths ts = Some ns /\ read_hundredths tb = Some nb
    /\ rounds_to_hundredths (p_spoof p) ns
    /\ rounds_to_hundredths (p_bonafide p) nb
    /\ (9999 <= ns + nb <= 10001)%Z.
Proof.
  intros p Hb0 Hb1 Hs0 Hs1 Hsum.
  pose proof (probability_of_float _ Hb0 Hb1) as Pb.
  pose proof (probability_of_float _ Hs0 Hs1) as Ps.
  rewrite eqb_spec, add_spec, Prim2SF_1 in Hsum.
  pose proof (sum_of_probabilities _ _ Pb Ps Hsum) as Hone.
  pose proof (units_probability _ Pb) as Ub.
  pose proof (units_probability _ Ps) as Us.
  destruct (percent_of_probability _ Pb) as (nb & Eb & Hb2 & Hb3).
  destruct (percent_of_probability _ Ps) as (ns & Es & Hs2 & Hs3).
  exists (fixed_notation ns 2), (fixed_notation nb 2), ns, nb.
  unfold ResultDisplay. cbn [spoofProbability bonafideProbability].
  fold p. split; [exact Es|]. split; [exact Eb|].
  split; [exact Es|]. split; [exact Eb|].
  split; [reflexivity|]. split; [reflexivity|].
  unfold rounds_to_hundredths. cbv zeta.
  clear Eb Es Pb Ps Hsum Hb0 Hb1 Hs0 Hs1.
  generalize dependent (units (Prim2SF (p_bonafide p))).
  generalize dependent (units (Prim2SF (p_spoof p))).
  intros Xs Us Hs2 Hs3 Xb Hone Ub Hb2 Hb3.
  apply Z.abs_le in Hone.
  split; [apply read_fixed_notation; lia|].
  split; [apply read_fixed_notation; lia|].
  split; [apply Z.abs_le; lia|].
  split; [apply Z.abs_le; lia|]. lia.
Qed.

Lemma C10_percentages_sum_witness :
  let r := sample_result "data:" in
  exists (ts tb : string) (ns nb : Z),
    spoofProbability (ResultDisplay r) = Some ts
    /\ bonafideProbability (ResultDisplay r) = Some tb
    /\ toFixed (p_spoof (probabilities r) * 100) 2 = Some ts
    /\ toFixed (p_bonafide (probabilities r) * 100) 2 = Some tb
    /\ ts = fixed_notation ns 2 /\ tb = fixed_notation nb 2
    /\ read_hundredths ts = Some ns /\ read_hundredths tb = Some nb
    /\ rounds_to_hundredths (p_spoof (probabilities r)) ns
    /\ rounds_to_hundredths (p_bonafide (probabilities r)) nb
    /\ (9999 <= ns + nb <= 10001)%Z.
Proof.
  intros r. apply (C10_percentages_sum r); vm_compute; reflexivity.
Defined.

(** The bound on the sum of the two percentages is met on both sides.
    Probabilities 0.00005 and 0.99995 show as 0.01 and 100.00. *)
Example percentages_sum_above_100 :
  let a := (5 / 100000)%float in
  let b := (1 - a)%float in
  ((0 <=? a) && (a <=? 1) && (0 <=? b) && (b <=? 1) && (a + b =? 1))%float = true
  /\ toFixed (a * 100) 2 = Some "0.01"
  /\ toFixed (b * 100) 2 = Some "100.00".
Proof. vm_compute. repeat split. Qed.

(** Probabilities 0.00015 and 0.99985 show as 0.01 and 99.98. *)
Example percentages_sum_below_100 :
  let a := (15 / 100000)%float in
  let b := (1 - a)%float in
  ((0 <=? a) && (a <=? 1) && (0 <=? b) && (b <=? 1) && (a + b =? 1))%float = true
  /\ toFixed (a * 100) 2 = Some "0.01"
  /\ toFixed (b * 100) 2 = Some "99.98".
Proof. vm_compute. repeat split. Qed.

(** ** The page as the user meets it *)

Lemma handleAnalyze_run_cont (f : File) (s : Session) :
  exists k,
    run (handleAnalyze (Some f)) s
    = ({| file := file s; result := None; isLoading := true; error := None |},
       Awaiting (OnFetch (request_for f) k))
    /\ fetch_cont k.
Proof.
  eexists. split; [reflexivity|].
  split; [intros e s'; reflexivity|]. split.
  - intros resp Hok s'. cbn. rewrite Hok. reflexivity.
  - intros resp Hok. eexists. split.
    + intros s'. cbn. rewrite Hok. reflexivity.
    + split; intros x s'; reflexivity.
Qed.

Lemma Forall_remove_nth {A : Type} (P : A -> Prop) (i : nat) (l : list A) :
  Forall P l -> Forall P (remove_nth i l).
Proof.
  intros H. revert i. induction H as [|x l Hx Hl IH]; intros [|i]; cbn; auto.
Qed.

(** What resuming a suspended [handleAnalyze] does to the session: it
    ends with the result, ends with a non-empty error message, or is
    suspended again with the session as it was.  The selected file is
    kept in each case. *)
Lemma resume_task_spec (t : Task) (a : Answer) (k : Prog unit) (s : Session) :
  task_spec t -> resume t a = Some k ->
  (exists data, run k s = ({| file := file s; result := Some data; isLoading := false;
                              error := error s |}, Finished))
  \/ (exists msg, msg <> EmptyString
                  /\ run k s = ({| file := file s; result := result s; isLoading := false;
                                   error := Some msg |}, Finished))
  \/ (exists t', run k s = (s, Awaiting t') /\ task_spec t').
Proof.
  assert (Hne : forall e, js_or (message e)
                            "An unexpected error occurred. Please try again."
                          <> EmptyString)
    by (intros e; apply js_or_nonempty; discriminate).
  destruct t as [req k0|r k0], a as [x|x]; cbn [resume task_spec]; intros Ht E;
    try discriminate; injection E as <-.
  - destruct Ht as (Hrej & Hbad & Hgood). destruct x as [resp|e].
    + destruct (ok resp) eqn:Hok.
      * destruct (Hgood resp Hok) as (k' & Hrun & Hk').
        right; right. exists (OnJson resp k'). split; [apply Hrun | exact Hk'].
      * right; left. eexists. split; [apply Hne | apply (Hbad resp Hok)].
    + right; left. eexists. split; [apply Hne | apply (Hrej e)].
  - destruct Ht as (Hrej & Hok). destruct x as [data|e].
    + left. exists data. apply (Hok data).
    + right; left. eexists. split; [apply Hne | apply (Hrej e)].
Qed.

Lemma tasks_inv_step (p p' : Page) (ev : Event) :
  tasks_inv p -> step p ev = Some p' -> tasks_inv p'.
Proof.
  destruct p as [s tasks]. unfold tasks_inv. cbn [session pending].
  intros (Ht & He) Hstep. destruct ev as [files| | |i a]; cbn in Hstep.
  - injection Hstep as <-. unfold dispatch.
    destruct files as [|f0 rest]; cbn; rewrite app_nil_r; split; auto; discriminate.
  - injection Hstep as <-. unfold dispatch, AnalyzeButton_onClick.
    destruct (AnalyzeButton_disabled (isLoading s) (file s)).
    + cbn. rewrite app_nil_r. auto.
    + destruct (file s) as [f|]; [|cbn; rewrite app_nil_r; auto].
      destruct (handleAnalyze_run_cont f s) as (k & Hrun & Hk).
      cbn [file] in Hrun. rewrite Hrun. cbn [session pending spawned error]. split.
      * apply Forall_app. split; [exact Ht|]. constructor; [exact Hk | constructor].
      * discriminate.
  - injection Hstep as <-. unfold dispatch. cbn. rewrite app_nil_r.
    split; [exact Ht | discriminate].
  - destruct (nth_error tasks i) as [t|] eqn:Hn; [|discriminate].
    destruct (resume t a) as [k|] eqn:Hk; [|discriminate].
    injection Hstep as <-. unfold dispatch.
    assert (Hspec : task_spec t).
    { apply nth_error_In in Hn. rewrite Forall_forall in Ht. exact (Ht t Hn). }
    pose proof (Forall_remove_nth task_spec i tasks Ht) as Hrest.
    destruct (resume_task_spec t a k s Hspec Hk)
      as [(data & E)|[(msg & Hmsg & E)|(t' & E & Ht')]]; rewrite E; cbn.
    + rewrite app_nil_r. auto.
    + rewrite app_nil_r. split; [exact Hrest|]. intros H. injection H as H. auto.
    + split; [|exact He]. apply Forall_app. split; [exact Hrest|].
      constructor; [exact Ht' | constructor].
Qed.

Lemma tasks_inv_reachable (p : Page) : reachable p -> tasks_inv p.
Proof.
  induction 1 as [|p p' ev _ IH Hstep].
  - split; [constructor | discriminate].
  - exact (tasks_inv_step p p' ev IH Hstep).
Qed.

Lemma ui_step_step (p p' : Page) (ev : Event) :
  ui_step p ev = Some p' -> on_page (session p) ev = true /\ step p ev = Some p'.
Proof.
  unfold ui_step. destruct (on_page (session p) ev); [auto | discriminate].
Qed.

Lemma ui_reachable_reachable (p : Page) : ui_reachable p -> reachable p.
Proof.
  induction 1 as [|p p' ev _ IH Hstep]; [constructor|].
  apply ui_step_step in Hstep. exact (reachable_step p p' ev IH (proj2 Hstep)).
Qed.

Lemma ui_reachable_run (evs : list Event) (p p' : Page) :
  ui_reachable p -> ui_run evs p = Some p' -> ui_reachable p'.
Proof.
  revert p. induction evs as [|ev evs IH]; intros p Hp; cbn.
  - intros E. injection E as <-. exact Hp.
  - destruct (ui_step p ev) as [p1|] eqn:E1; [|discriminate].
    apply IH. exact (ui_reachable_step p p1 ev Hp E1).
Qed.

(** On the page as the user meets it, a file is selected whenever the
    page is loading or shows a result. *)
Lemma ui_file_selected (p : Page) :
  ui_reachable p ->
  isLoading (session p) = true \/ result (session p) <> None ->
  file (session p) <> None.
Proof.
  induction 1 as [|p p' ev Hp IH Hstep]; [cbn; intros [H|H]; congruence|].
  pose proof (page_inv_reachable p (ui_reachable_reachable p Hp)) as Hinv.
  pose proof (tasks_inv_reachable p (ui_reachable_reachable p Hp)) as (Htasks & _).
  apply ui_step_step in Hstep. destruct Hstep as (Hon & Hstep).
  destruct p as [s tasks]. unfold page_inv in Hinv. cbn [session pending] in *.
  destruct ev as [files| | |i a]; cbn in Hstep, Hon.
  - injection Hstep as <-. unfold dispatch.
    destruct files as [|f0 rest]; cbn; [exact IH | discriminate].
  - injection Hstep as <-. unfold dispatch, AnalyzeButton_onClick, AnalyzeButton_disabled.
    destruct (file s) as [f|] eqn:Hf; cbn [orb].
    + destruct (isLoading s) eqn:Hl.
      * cbn. rewrite Hf. discriminate.
      * destruct (handleAnalyze_run_cont f s) as (k & Hrun & _).
        rewrite Hrun. cbn. rewrite Hf. discriminate.
    + cbn. rewrite Hf. exact IH.
  - destruct Hinv as [(Hl & Hr & _)|(Hl & _)].
    + rewrite Hr in Hon. discriminate.
    + injection Hstep as <-. unfold dispatch. cbn. rewrite Hl.
      intros [H|H]; congruence.
  - destruct (nth_error tasks i) as [t|] eqn:Hn; [|discriminate].
    destruct (resume t a) as [k|] eqn:Hk; [|discriminate].
    injection Hstep as <-. unfold dispatch.
    assert (Hspec : task_spec t).
    { apply nth_error_In in Hn. rewrite Forall_forall in Htasks. exact (Htasks t Hn). }
    assert (Hload : isLoading s = true).
    { destruct Hinv as [(Hl & _)|(_ & Hp' & _)]; [exact Hl|].
      subst tasks. destruct i; discriminate. }
    specialize (IH (or_introl Hload)).
    destruct (resume_task_spec t a k s Hspec Hk)
      as [(data & E)|[(msg & _ & E)|(t' & E & _)]]; rewrite E; cbn; intros _; exact IH.
Qed.

(** While a result is shown nothing is pending, the page is not loading,
    there is no error banner and no upload zone, and a file is selected;
    the only event that can happen is the click on "Analyze Another
    File", and it leads to the page as it was loaded. *)
Theorem result_page_only_resets (p : Page) (isDragActive : bool) :
  ui_reachable p ->
  result (session p) <> None ->
  isLoading (session p) = false
  /\ pending p = []
  /\ file (session p) <> None
  /\ errorMessage (VoiceGuardPage isDragActive (session p)) = None
  /\ upload (VoiceGuardPage isDragActive (session p)) = None
  /\ (forall ev p', ui_step p ev = Some p' -> ev = ClickReset /\ p' = page_load).
Proof.
  intros Hp Hr.
  pose proof (ui_file_selected p Hp (or_intror Hr)) as Hf.
  pose proof (page_inv_reachable p (ui_reachable_reachable p Hp)) as Hinv.
  destruct p as [s tasks]. unfold page_inv in Hinv. cbn [session pending] in *.
  destruct Hinv as [(_ & Hr' & _)|(Hl & Hp' & [Hr'|He])]; try congruence.
  subst tasks. repeat (split; [assumption || reflexivity|]).
  split; [cbn; rewrite He; reflexivity|].
  destruct (result s) as [r|] eqn:Er; [|congruence].
  split; [cbn; rewrite Er; reflexivity|].
  intros ev p' Hstep. apply ui_step_step in Hstep. destruct Hstep as (Hon & Hstep).
  cbn [session] in Hon.
  destruct ev as [files| | |i a]; cbn in Hon; try rewrite Er in Hon; try discriminate.
  - split; [reflexivity|]. cbn in Hstep. injection Hstep as <-.
    unfold dispatch. cbn. rewrite Hl. reflexivity.
  - cbn in Hstep. destruct i; discriminate.
Qed.

Lemma result_page_only_resets_witness :
  let p := {| session := {| file := Some song; result := Some (sample_result "data:");
                            isLoading := false; error := None |};
              pending := [] |} in
  isLoading (session p) = false
  /\ pending p = []
  /\ file (session p) <> None
  /\ errorMessage (VoiceGuardPage true (session p)) = None
  /\ upload (VoiceGuardPage true (session p)) = None
  /\ (forall ev p', ui_step p ev = Some p' -> ev = ClickReset /\ p' = page_load).
Proof.
  intros p. apply (result_page_only_resets p true); [|discriminate].
  apply (ui_reachable_run
           [Drop [song]; ClickAnalyze;
            Settle 0 (FetchSettled (Fulfilled {| status := 200; statusText := "OK" |}));
            Settle 0 (JsonSettled (Fulfilled (sample_result "data:")))]
           page_load p ui_reachable_load).
  reflexivity.
Defined.

(** While the page is loading, exactly one request is pending, a file is
    selected, the page shows the upload zone for that file and the
    analyze button disabled with its spinner, and neither error banner
    nor result; a click on the button changes nothing and there is no
    reset button to click. *)
Theorem loading_page_view (p : Page) (isDragActive : bool) :
  ui_reachable p ->
  isLoading (session p) = true ->
  in_flight p = 1%nat
  /\ (exists f,
        file (session p) = Some f
        /\ upload (VoiceGuardPage isDragActive (session p))
           = Some (UploadZone isDragActive (Some f),
                   {| disabled := true; spinner := true; label := "Analyzing..." |}))
  /\ errorMessage (VoiceGuardPage isDragActive (session p)) = None
  /\ results (VoiceGuardPage isDragActive (session p)) = None
  /\ ui_step p ClickAnalyze = Some p
  /\ ui_step p ClickReset = None.
Proof.
  intros Hp Hl.
  pose proof (ui_file_selected p Hp (or_introl Hl)) as Hf.
  pose proof (page_inv_reachable p (ui_reachable_reachable p Hp)) as Hinv.
  destruct p as [s tasks]. unfold page_inv in Hinv. cbn [session pending] in *.
  destruct Hinv as [(_ & Hr & He & t & Hp' & _)|(Hl' & _)]; [|congruence].
  subst tasks. split; [reflexivity|].
  destruct (file s) as [f|] eqn:Ef; [|congruence].
  split.
  { exists f. split; [reflexivity|]. cbn. rewrite Hr, Ef, Hl. reflexivity. }
  split; [cbn; rewrite He; reflexivity|].
  split; [cbn; rewrite Hr; reflexivity|].
  unfold ui_step. cbn [session on_page]. rewrite Hr. split; [|reflexivity].
  cbn [step session pending]. fold (analyze_click s).
  rewrite (analyze_click_disabled s (or_intror Hl)). reflexivity.
Qed.

Lemma loading_page_view_witness :
  exists p,
    ui_run [Drop [song]; ClickAnalyze] page_load = Some p
    /\ in_flight p = 1%nat
    /\ (exists f,
          file (session p) = Some f
          /\ upload (VoiceGuardPage false (session p))
             = Some (UploadZone false (Some f),
                     {| disabled := true; spinner := true; label := "Analyzing..." |}))
    /\ errorMessage (VoiceGuardPage false (session p)) = None
    /\ results (VoiceGuardPage false (session p)) = None
    /\ ui_step p ClickAnalyze = Some p
    /\ ui_step p ClickReset = None.
Proof.
  eexists. split; [reflexivity|].
  apply loading_page_view; [|reflexivity].
  apply (ui_reachable_run [Drop [song]; ClickAnalyze] page_load);
    [apply ui_reachable_load | reflexivity].
Defined.

(** Once the page is not loading, no promise is left to settle: no late
    response can change what the page shows. *)
Theorem no_settlement_when_idle (p : Page) (i : nat) (a : Answer) :
  reachable p ->
  isLoading (session p) = false ->
  step p (Settle i a) = None.
Proof.
  intros Hp Hl.
  destruct (page_inv_reachable p Hp) as [(Hl' & _)|(_ & Hp' & _)]; [congruence|].
  cbn. rewrite Hp'. destruct i; reflexivity.
Qed.

Lemma no_settlement_when_idle_witness :
  exists p,
    run_events [Drop [song]; ClickAnalyze;
                Settle 0 (FetchSettled (Rejected (Error "Failed to fetch")))]
               page_load = Some p
    /\ step p (Settle 0 (JsonSettled (Fulfilled (sample_result "data:")))) = None.
Proof.
  eexists. split; [reflexivity|].
  apply no_settlement_when_idle; [|reflexivity].
  apply (reachable_run_events
           [Drop [song]; ClickAnalyze;
            Settle 0 (FetchSettled (Rejected (Error "Failed to fetch")))] page_load);
    [apply reachable_load | reflexivity].
Defined.

(** The error banner shows the error message whenever there is one: the
    message is never the empty string, which [error && ...] would hide. *)
Theorem error_banner_shows_error (p : Page) (isDragActive : bool) :
  reachable p ->
  errorMessage (VoiceGuardPage isDragActive (session p)) = error (session p).
Proof.
  intros Hp. destruct (tasks_inv_reachable p Hp) as (_ & He).
  cbn. destruct (error (session p)) as [[|c m]|] eqn:E; try reflexivity. congruence.
Qed.

Lemma error_banner_shows_error_witness :
  exists p,
    run_events [Drop [song]; ClickAnalyze;
                Settle 0 (FetchSettled (Rejected (Error EmptyString)))]
               page_load = Some p
    /\ errorMessage (VoiceGuardPage false (session p)) = error (session p).
Proof.
  eexists. split; [reflexivity|].
  apply error_banner_shows_error.
  apply (reachable_run_events
           [Drop [song]; ClickAnalyze;
            Settle 0 (FetchSettled (Rejected (Error EmptyString)))] page_load);
    [apply reachable_load | reflexivity].
Defined.

(** ** Complete runs and how the operations compose *)


(** Of the session it starts from, a complete analysis keeps the
    selected file and nothing else: from two sessions with the same
    selected file it ends in the same session. *)
Theorem analysis_forgets_the_past (s1 s2 : Session) (net : Network) :
  file s1 = file s2 ->
  file s1 <> None ->
  perform s1 (analyze net) = perform s2 (analyze net).
Proof.
  intros E Hf. unfold perform. rewrite <- E.
  destruct (file s1) as [f|] eqn:Ef; [|congruence].
  destruct (respond net (request_for f)) as [resp|e] eqn:H.
  - destruct (ok resp) eqn:Hok.
    + destruct (parse net resp) as [data|e] eqn:Hp.
      * rewrite !(exec_success net _ f [] resp data H Hok Hp).
        cbn. unfold succeeded_with. congruence.
      * rewrite !(exec_json_rejected net _ f [] resp e H Hok Hp).
        cbn. unfold failed_with. congruence.
    + rewrite !(exec_not_ok net _ f [] resp H Hok). cbn. unfold failed_with. congruence.
  - rewrite !(exec_fetch_rejected net _ f [] e H). cbn. unfold failed_with. congruence.
Qed.

Lemma analysis_forgets_the_past_witness :
  let s1 := {| file := Some song; result := Some (sample_result "data:");
               isLoading := false; error := None |} in
  let s2 := {| file := Some song; result := None; isLoading := true;
               error := Some "Server error: Bad Gateway" |} in
  let net := always (Fulfilled {| status := 503; statusText := "Service Unavailable" |})
                    (Rejected (Error EmptyString)) in
  perform s1 (analyze net) = perform s2 (analyze net).
Proof.
  intros s1 s2 net. apply (analysis_forgets_the_past s1 s2 net); [reflexivity|discriminate].
Defined.

(** After an analysis that left no result the page shows the upload
    zone with the analyze button enabled, the error banner shows the
    stored error message if there is one, and a click on the button
    sends the same request for the same file again. *)
Theorem retry_after_failure
    (s : Session) (f : File) (net : Network) (isDragActive : bool) :
  file s = Some f ->
  result (perform s (analyze net)) = None ->
  let s' := perform s (analyze net) in
  errorMessage (VoiceGuardPage isDragActive s') = error s'
  /\ upload (VoiceGuardPage isDragActive s')
     = Some (UploadZone isDragActive (Some f),
             {| disabled := false; spinner := false; label := "Start Analysis" |})
  /\ (exists k, run (analyze_click s') s'
                = (loading f, Awaiting (OnFetch (request_for f) k))).
Proof.
  intros Hf Hr. cbn zeta. revert Hr. unfold perform. rewrite Hf.
  assert (Hx : (exists data, exec net (handleAnalyze (Some f)) s []
                             = (succeeded_with s data, ([] ++ [request_for f])%list, None))
               \/ (exists e, exec net (handleAnalyze (Some f)) s []
                             = (failed_with s e, ([] ++ [request_for f])%list, None))).
  { destruct (respond net (request_for f)) as [resp|e] eqn:H.
    - destruct (ok resp) eqn:Hok.
      + destruct (parse net resp) as [data|e] eqn:Hp.
        * left. exists data. apply (exec_success net s f [] resp data H Hok Hp).
        * right. exists e. apply (exec_json_rejected net s f [] resp e H Hok Hp).
      + right. eexists. apply (exec_not_ok net s f [] resp H Hok).
    - right. exists e. apply (exec_fetch_rejected net s f [] e H). }
  destruct Hx as [(data & E)|(e & E)]; rewrite E; cbn [fst]; intros Hr;
    [discriminate Hr|].
  assert (Hfile : file (failed_with s e) = Some f) by exact Hf.
  split.
  { cbn. pose proof (js_or_nonempty (message e)
                       "An unexpected error occurred. Please try again."
                       ltac:(discriminate)) as Hne.
    destruct (js_or (message e) "An unexpected error occurred. Please try again.");
      [congruence | reflexivity]. }
  split.
  { cbn. rewrite Hf. reflexivity. }
  rewrite (analyze_click_enabled (failed_with s e) f Hfile eq_refl).
  destruct (handleAnalyze_run_cont f (failed_with s e)) as (k & Hrun & _).
  exists k. rewrite Hrun. cbn [failed_with file]. rewrite Hf. reflexivity.
Qed.

Lemma retry_after_failure_witness :
  let s := {| file := Some song; result := None; isLoading := false; error := None |} in
  let net := always (Fulfilled {| status := 200; statusText := "OK" |})
                    (Rejected (Error "Unexpected token < in JSON at position 0")) in
  let s' := perform s (analyze net) in
  errorMessage (VoiceGuardPage false s') = error s'
  /\ upload (VoiceGuardPage false s')
     = Some (UploadZone false (Some song),
             {| disabled := false; spinner := false; label := "Start Analysis" |})
  /\ (exists k, run (analyze_click s') s'
                = (loading song, Awaiting (OnFetch (request_for song) k))).
Proof.
  intros s net. apply (retry_after_failure s song net false); reflexivity.
Defined.

(** A file dropped while a request is out replaces the selected file and
    its name in the upload zone, but the request goes on with the file
    it was sent for, and its result is shown when it arrives: the page
    then shows the result of one file next to another selected file. *)
Theorem drop_while_loading
    (s : Session) (f g : File) (rest : list File)
    (resp : Response) (data : AnalysisResult) (isDragActive : bool) :
  file s = Some f -> isLoading s = false -> result s = None ->
  ok resp = true ->
  exists k p1 p2,
    ui_step {| session := s; pending := [] |} ClickAnalyze = Some p1
    /\ pending p1 = [OnFetch (request_for f) k]
    /\ ui_step p1 (Drop (g :: rest)) = Some p2
    /\ pending p2 = [OnFetch (request_for f) k]
    /\ option_map (fun u => zoneTitle (fst u)) (upload (VoiceGuardPage isDragActive (session p2)))
       = Some (name g)
    /\ ui_run [Settle 0 (FetchSettled (Fulfilled resp));
               Settle 0 (JsonSettled (Fulfilled data))] p2
       = Some {| session := {| file := Some g; result := Some data;
                               isLoading := false; error := None |};
                 pending := [] |}.
Proof.
  intros Hf Hl Hr Hok.
  destruct (handleAnalyze_run_cont f s) as (k & Hrun & (_ & _ & Hgood)).
  destruct (Hgood resp Hok) as (k' & Hrun' & (_ & Hdata)).
  exists k,
    {| session := {| file := file s; result := None; isLoading := true; error := None |};
       pending := [OnFetch (request_for f) k] |},
    {| session := {| file := Some g; result := None; isLoading := true; error := None |};
       pending := [OnFetch (request_for f) k] |}.
  split.
  { unfold ui_step. cbn [session on_page]. rewrite Hr.
    cbn [step session pending]. fold (analyze_click s).
    rewrite (analyze_click_enabled s f Hf Hl). unfold dispatch. rewrite Hrun.
    reflexivity. }
  split; [reflexivity|]. split; [reflexivity|]. split; [reflexivity|].
  split; [reflexivity|].
  cbn [ui_run]. unfold ui_step at 1. cbn [session on_page].
  cbn [step session pending nth_error resume remove_nth]. unfold dispatch at 1.
  rewrite Hrun'. cbn [app spawned].
  unfold ui_step. cbn [session on_page].
  cbn [step session pending nth_error resume remove_nth]. unfold dispatch.
  rewrite (Hdata data). reflexivity.
Qed.

Lemma drop_while_loading_witness :
  let s := {| file := Some song; result := None; isLoading := false; error := None |} in
  let other := {| name := "b.mp3"; mime := "audio/mpeg"; bytes := [] |} in
  let resp := {| status := 200; statusText := "OK" |} in
  let data := sample_result "data:" in
  exists k p1 p2,
    ui_step {| session := s; pending := [] |} ClickAnalyze = Some p1
    /\ pending p1 = [OnFetch (request_for song) k]
    /\ ui_step p1 (Drop [other]) = Some p2
    /\ pending p2 = [OnFetch (request_for song) k]
    /\ option_map (fun u => zoneTitle (fst u)) (upload (VoiceGuardPage false (session p2)))
       = Some (name other)
    /\ ui_run [Settle 0 (FetchSettled (Fulfilled resp));
               Settle 0 (JsonSettled (Fulfilled data))] p2
       = Some {| session := {| file := Some other; result := Some data;
                               isLoading := false; error := None |};
                 pending := [] |}.
Proof.
  intros s other resp data.
  apply (drop_while_loading s song other [] resp data false); reflexivity.
Defined.

(** How a drop leaves a session: the file selected, the error cleared. *)
Lemma drops_from (drops : list (list File)) (sofar : option File) (s : Session) :
  let select (o : option File) :=
    match o with
    | None => s
    | Some f => {| file := Some f; result := result s; isLoading := isLoading s;
                   error := None |}
    end in
  perform_all (map acceptDrop drops) (select sofar) = select (last_dropped drops sofar).
Proof.
  cbn zeta. revert sofar. induction drops as [|files drops IH]; intros sofar.
  - reflexivity.
  - cbn [map perform_all fold_left]. fold (perform_all (map acceptDrop drops)).
    destruct files as [|f0 rest].
    + cbn [perform onDrop run fst last_dropped]. apply IH.
    + cbn [last_dropped]. rewrite <- (IH (Some f0)). f_equal.
      destruct sofar; reflexivity.
Qed.

(** Any sequence of drops amounts to its last non-empty one: the first
    file of that list is selected, the error is cleared, the result and
    [isLoading] are untouched; a sequence of empty drops (every file
    rejected) changes nothing, an error banner included. *)
Theorem drops_compose (drops : list (list File)) (s : Session) :
  perform_all (map acceptDrop drops) s =
  match last_dropped drops None with
  | None => s
  | Some f => {| file := Some f; result := result s; isLoading := isLoading s;
                 error := None |}
  end.
Proof. exact (drops_from drops None s). Qed.

(** ** What the result panel and the upload zone show *)

Lemma percent_in_range (x : float) :
  (0 <=? x)%float = true -> (x <=? 1)%float = true ->
  exists n : Z,
    toFixed (x * 100) 2 = Some (fixed_notation n 2)
    /\ read_hundredths (fixed_notation n 2) = Some n
    /\ (0 <= n <= 10000)%Z.
Proof.
  intros H0 H1. pose proof (probability_of_float x H0 H1) as P.
  pose proof (units_probability _ P) as U.
  destruct (percent_of_probability x P) as (n & E & Hlo & Hhi).
  exists n. split; [exact E|].
  generalize dependent (units (Prim2SF x)). intros X U Hlo Hhi.
  assert (Hn : (0 <= n <= 10000)%Z) by lia.
  split; [apply read_fixed_notation; lia | exact Hn].
Qed.

(** For a result whose probabilities lie between 0 and 1, the three
    percentages of the panel are fixed notations with two decimals of
    numbers between 0.00 and 100.00 (never [NaN], never negative, never
    in exponent notation), and the confidence is the percentage shown
    for the predicted class. *)
Theorem displayed_percentages_in_range (r : AnalysisResult) :
  let p := probabilities r in
  (0 <=? p_bonafide p)%float = true -> (p_bonafide p <=? 1)%float = true ->
  (0 <=? p_spoof p)%float = true -> (p_spoof p <=? 1)%float = true ->
  exists nc ns nb : Z,
    confidence (ResultDisplay r) = Some (fixed_notation nc 2)
    /\ spoofProbability (ResultDisplay r) = Some (fixed_notation ns 2)
    /\ bonafideProbability (ResultDisplay r) = Some (fixed_notation nb 2)
    /\ read_hundredths (fixed_notation nc 2) = Some nc
    /\ read_hundredths (fixed_notation ns 2) = Some ns
    /\ read_hundredths (fixed_notation nb 2) = Some nb
    /\ (0 <= ns <= 10000)%Z /\ (0 <= nb <= 10000)%Z
    /\ nc = (if isSpoof (ResultDisplay r) then ns else nb).
Proof.
  intros p Hb0 Hb1 Hs0 Hs1.
  destruct (percent_in_range _ Hb0 Hb1) as (nb & Eb & Rb & Hb).
  destruct (percent_in_range _ Hs0 Hs1) as (ns & Es & Rs & Hs).
  exists (if isSpoof (ResultDisplay r) then ns else nb), ns, nb.
  unfold ResultDisplay. cbn [confidence spoofProbability bonafideProbability isSpoof].
  fold p. unfold prob.
  destruct (prediction r); repeat (split; [assumption|]); reflexivity.
Qed.

Lemma displayed_percentages_in_range_witness :
  let r := {| prediction := spoof;
              probabilities := {| p_bonafide := 0.25; p_spoof := 0.5 |};
              spectrogram_png := "data:" |} in
  exists nc ns nb : Z,
    confidence (ResultDisplay r) = Some (fixed_notation nc 2)
    /\ spoofProbability (ResultDisplay r) = Some (fixed_notation ns 2)
    /\ bonafideProbability (ResultDisplay r) = Some (fixed_notation nb 2)
    /\ read_hundredths (fixed_notation nc 2) = Some nc
    /\ read_hundredths (fixed_notation ns 2) = Some ns
    /\ read_hundredths (fixed_notation nb 2) = Some nb
    /\ (0 <= ns <= 10000)%Z /\ (0 <= nb <= 10000)%Z
    /\ nc = (if isSpoof (ResultDisplay r) then ns else nb).
Proof.
  intros r. apply (displayed_percentages_in_range r); vm_compute; reflexivity.
Defined.

(** The two percentages of a valid result need not sum to 100.00: there
    are valid results whose percentages sum to 100.01 and to 99.99. *)
Theorem percentages_need_not_sum_to_100 :
  exists r1 r2 : AnalysisResult,
    valid_result r1 = true /\ shown_sum r1 = Some 10001%Z
    /\ valid_result r2 = true /\ shown_sum r2 = Some 9999%Z.
Proof.
  exists {| prediction := bonafide;
            probabilities := {| p_bonafide := (1 - 5 / 100000)%float;
                                p_spoof := (5 / 100000)%float |};
            spectrogram_png := "data:" |},
         {| prediction := bonafide;
            probabilities := {| p_bonafide := (1 - 15 / 100000)%float;
                                p_spoof := (15 / 100000)%float |};
            spectrogram_png := "data:" |}.
  vm_compute. repeat split.
Qed.

(** The note under an empty upload zone names the formats of four of the
    five extensions the dropzone is told to accept: [.flac] files are
    accepted and not named. *)
Theorem note_omits_flac (isDragActive : bool) :
  let note := zoneNote (UploadZone isDragActive None) in
  let extensions := List.concat (map snd (accept dropzoneOptions)) in
  partition (names_format note) extensions
  = ([".mp3"; ".wav"; ".m4a"; ".ogg"], [".flac"]).
Proof. destruct isDragActive; vm_compute; reflexivity. Qed.

(** ** What the page never does *)

(** One event keeps the selected file unless it is a non-empty drop or
    the reset click. *)
Lemma step_file (p p' : Page) (ev : Event) :
  reachable p -> step p ev = Some p' ->
  file (session p') = file (session p)
  \/ (exists f rest, ev = Drop (f :: rest) /\ file (session p') = Some f)
  \/ (ev = ClickReset /\ file (session p') = None).
Proof.
  intros Hp Hstep. destruct (tasks_inv_reachable p Hp) as (Htasks & _).
  destruct p as [s tasks]. cbn [session pending] in *.
  destruct ev as [files| | |i a]; cbn in Hstep.
  - injection Hstep as <-. unfold dispatch.
    destruct files as [|f0 rest]; cbn; [left; reflexivity|].
    right; left. exists f0, rest. split; reflexivity.
  - left. injection Hstep as <-. unfold dispatch, AnalyzeButton_onClick.
    destruct (AnalyzeButton_disabled (isLoading s) (file s)); [reflexivity|].
    destruct (file s) as [f|] eqn:Hf; [|cbn; exact Hf].
    destruct (handleAnalyze_run_cont f s) as (k & Hrun & _).
    rewrite Hrun. cbn. exact Hf.
  - right; right. injection Hstep as <-. split; reflexivity.
  - left. destruct (nth_error tasks i) as [t|] eqn:Hn; [|discriminate].
    destruct (resume t a) as [k|] eqn:Hk; [|discriminate].
    injection Hstep as <-. unfold dispatch.
    assert (Hspec : task_spec t).
    { apply nth_error_In in Hn. rewrite Forall_forall in Htasks. exact (Htasks t Hn). }
    destruct (resume_task_spec t a k s Hspec Hk)
      as [(data & E)|[(msg & _ & E)|(t' & E & _)]]; rewrite E; reflexivity.
Qed.

(** A selected file is unselected by the reset click only, and the
    reset button is there only while a result is shown: without a
    successful analysis the page never gets back to having no file. *)
Theorem file_unselected_only_after_result (p p' : Page) (ev : Event) :
  ui_reachable p ->
  ui_step p ev = Some p' ->
  file (session p) <> None ->
  file (session p') = None ->
  ev = ClickReset /\ result (session p) <> None.
Proof.
  intros Hp Hstep Hf Hf'. apply ui_step_step in Hstep. destruct Hstep as (Hon & Hstep).
  destruct (step_file p p' ev (ui_reachable_reachable p Hp) Hstep)
    as [E|[(f & rest & _ & E)|(-> & _)]]; [congruence | congruence |].
  split; [reflexivity|]. cbn in Hon. destruct (result (session p)); [discriminate|discriminate].
Qed.

Lemma file_unselected_only_after_result_witness :
  let p := {| session := {| file := Some song; result := Some (sample_result "data:");
                            isLoading := false; error := None |};
              pending := [] |} in
  ClickReset = ClickReset /\ result (session p) <> None.
Proof.
  intros p.
  apply (file_unselected_only_after_result p page_load ClickReset);
    [|reflexivity|discriminate|reflexivity].
  apply (ui_reachable_run
           [Drop [song]; ClickAnalyze;
            Settle 0 (FetchSettled (Fulfilled {| status := 200; statusText := "OK" |}));
            Settle 0 (JsonSettled (Fulfilled (sample_result "data:")))]
           page_load p ui_reachable_load).
  reflexivity.
Defined.

(** While an error is shown there is no result and no reset button; the
    error goes away only with a non-empty drop or with a click on the
    analyze button that starts a new analysis. *)
Theorem error_page_events (p : Page) (isDragActive : bool) :
  ui_reachable p ->
  error (session p) <> None ->
  results (VoiceGuardPage isDragActive (session p)) = None
  /\ ui_step p ClickReset = None
  /\ (forall ev p', ui_step p ev = Some p' -> error (session p') = None ->
        (exists f rest, ev = Drop (f :: rest))
        \/ (ev = ClickAnalyze /\ file (session p) <> None)).
Proof.
  intros Hp He.
  pose proof (page_inv_reachable p (ui_reachable_reachable p Hp)) as Hinv.
  destruct p as [s tasks]. unfold page_inv in Hinv. cbn [session pending] in *.
  destruct Hinv as [(_ & _ & He' & _)|(Hl & Hp' & [Hr|He'])]; try congruence.
  subst tasks. split; [cbn; rewrite Hr; reflexivity|].
  split; [unfold ui_step; cbn; rewrite Hr; reflexivity|].
  intros ev p' Hstep He'. apply ui_step_step in Hstep. destruct Hstep as (Hon & Hstep).
  destruct ev as [files| | |i a]; cbn in Hstep, Hon.
  - destruct files as [|f0 rest]; [|left; exists f0, rest; reflexivity].
    injection Hstep as <-. cbn in He'. congruence.
  - right. split; [reflexivity|]. intros Hf. injection Hstep as <-.
    unfold dispatch, AnalyzeButton_onClick, AnalyzeButton_disabled in He'.
    rewrite Hf in He'. cbn in He'. congruence.
  - rewrite Hr in Hon. discriminate.
  - destruct i; discriminate.
Qed.

Lemma error_page_events_witness :
  let p := {| session := {| file := Some song; result := None; isLoading := false;
                            error := Some "Failed to fetch" |};
              pending := [] |} in
  results (VoiceGuardPage false (session p)) = None
  /\ ui_step p ClickReset = None
  /\ (forall ev p', ui_step p ev = Some p' -> error (session p') = None ->
        (exists f rest, ev = Drop (f :: rest))
        \/ (ev = ClickAnalyze /\ file (session p) <> None)).
Proof.
  intros p. apply (error_page_events p false); [|discriminate].
  apply (ui_reachable_run
           [Drop [song]; ClickAnalyze;
            Settle 0 (FetchSettled (Rejected (Error "Failed to fetch")))]
           page_load p ui_reachable_load).
  reflexivity.
Defined.

(** Only an enabled click on the analyze button sends a request: when an
    event leaves more requests pending than before, it is that click, on
    a page with a file selected and nothing pending, and the one request
    is the one for that file.  No drop, reset or settlement ever sends
    one: nothing is retried or sent again on its own. *)
Theorem only_the_click_sends (p p' : Page) (ev : Event) :
  reachable p ->
  step p ev = Some p' ->
  (in_flight p < in_flight p')%nat ->
  ev = ClickAnalyze
  /\ isLoading (session p) = false
  /\ pending p = []
  /\ exists f k, file (session p) = Some f /\ pending p' = [OnFetch (request_for f) k].
Proof.
  intros Hp Hstep Hlt.
  pose proof (page_inv_reachable p Hp) as Hinv.
  pose proof (page_inv_reachable p' (reachable_step p p' ev Hp Hstep)) as Hinv'.
  destruct p as [s tasks]. unfold page_inv, in_flight in *. cbn [session pending] in *.
  destruct Hinv as [(Hl & _ & _ & t & Hp1 & _)|(Hl & Hp1 & _)]; subst tasks.
  { (* one pending already: the invariant allows no second one *)
    exfalso. destruct Hinv' as [(_ & _ & _ & t' & E & _)|(_ & E & _)];
      rewrite E in Hlt; cbn in Hlt; lia. }
  destruct ev as [files| | |i a]; cbn in Hstep.
  - exfalso. injection Hstep as <-. unfold dispatch in Hlt.
    destruct files; cbn in Hlt; lia.
  - split; [reflexivity|]. split; [exact Hl|]. split; [reflexivity|].
    injection Hstep as <-.
    unfold dispatch, AnalyzeButton_onClick, AnalyzeButton_disabled in *.
    destruct (file s) as [f|] eqn:Hf; [|cbn in Hlt; lia].
    rewrite Hl in *. cbn [orb] in *.
    destruct (handleAnalyze_run_cont f s) as (k & Hrun & _).
    rewrite Hrun. exists f, k. split; reflexivity.
  - exfalso. injection Hstep as <-. cbn in Hlt. lia.
  - destruct i; discriminate.
Qed.

Lemma only_the_click_sends_witness :
  let p := {| session := {| file := Some song; result := None; isLoading := false;
                            error := None |};
              pending := [] |} in
  exists p',
    step p ClickAnalyze = Some p'
    /\ ClickAnalyze = ClickAnalyze
    /\ isLoading (session p) = false
    /\ pending p = []
    /\ exists f k, file (session p) = Some f /\ pending p' = [OnFetch (request_for f) k].
Proof.
  intros p. eexists. split; [reflexivity|].
  apply (only_the_click_sends p).
  - apply (reachable_run_events [Drop [song]] page_load p reachable_load). reflexivity.
  - reflexivity.
  - cbn. lia.
Defined.
